(** * Yatube (hw05_final): the posts application

    A shallow embedding of [yatube/posts/views.py] and
    [yatube/posts/utils.py], together with the parts of Django the views
    call: the ORM manager methods, [Paginator], [login_required],
    [cache_page] and the exception handling at the boundary of a request.

    The tables of the database are lists of rows in storage order, the
    request is a record, and a view is a computation in a small state and
    exception monad over the [World] (database, response cache, clock). *)

From Stdlib Require Import ZArith List String Ascii Bool Lia.
From Stdlib Require Import Sorting.Sorted Sorting.Permutation.
Import ListNotations.

Local Open Scope string_scope.
Local Open Scope Z_scope.

(* ===================================================================== *)
(** * Python values used by the views *)
(* ===================================================================== *)

Module Py.

(** The ASCII characters [str.strip()] treats as white space
    ([str.isspace]): tab to carriage return, the separators 28 to 31 and
    the space. *)
Definition isspace (c : ascii) : bool :=
  let n := nat_of_ascii c in
  ((9 <=? n) && (n <=? 13) || (28 <=? n) && (n <=? 32))%nat.

(** The ASCII characters [int()] skips around a literal: tab to carriage
    return and the space, not the separators 28 to 31. *)
Definition isspace_int (c : ascii) : bool :=
  let n := nat_of_ascii c in
  ((9 <=? n) && (n <=? 13) || (n =? 32))%nat.

(** The string holds ASCII characters only.  The strings of this model
    stand for Python's [str] on these; what Python does with other
    characters (it reads the decimal digits and the spaces of every
    script) is outside the model, and the statements that depend on how
    a string is read as an integer ask for an ASCII string. *)
Fixpoint is_ascii (s : string) : bool :=
  match s with
  | EmptyString => true
  | String c s' => (nat_of_ascii c <? 128)%nat && is_ascii s'
  end.

Definition digit_of (c : ascii) : option Z :=
  let n := Z.of_nat (nat_of_ascii c) in
  if (48 <=? n) && (n <=? 57) then Some (n - 48) else None.

Fixpoint lstrip (s : string) : string :=
  match s with
  | String c s' => if isspace c then lstrip s' else s
  | EmptyString => EmptyString
  end.

Fixpoint rstrip (s : string) : string :=
  match s with
  | EmptyString => EmptyString
  | String c s' =>
      match rstrip s' with
      | EmptyString => if isspace c then EmptyString else String c EmptyString
      | t => String c t
      end
  end.

Definition strip (s : string) : string := rstrip (lstrip s).

(** The digits of a decimal literal, most significant first.  A single
    underscore is allowed between two digits; [after_digit] tells
    whether the previous character was a digit. *)
Fixpoint digits (after_digit : bool) (acc : Z) (s : string) : option Z :=
  match s with
  | EmptyString => if after_digit then Some acc else None
  | String c s' =>
      match digit_of c with
      | Some d => digits true (10 * acc + d) s'
      | None =>
          if (c =? "_")%char && after_digit
          then match s' with
               | String c' _ =>
                   match digit_of c' with
                   | Some _ => digits false acc s'
                   | None => None
                   end
               | EmptyString => None
               end
          else None
      end
  end.

Fixpoint lskip (s : string) : string :=
  match s with
  | String c s' => if isspace_int c then lskip s' else s
  | EmptyString => EmptyString
  end.

Fixpoint rskip (s : string) : string :=
  match s with
  | EmptyString => EmptyString
  | String c s' =>
      match rskip s' with
      | EmptyString => if isspace_int c then EmptyString else String c EmptyString
      | t => String c t
      end
  end.

(** The number of decimal digits in a string. *)
Fixpoint count_digits (s : string) : Z :=
  match s with
  | EmptyString => 0
  | String c s' =>
      match digit_of c with
      | Some _ => 1 + count_digits s'
      | None => count_digits s'
      end
  end.

(** [sys.get_int_max_str_digits()], at its default. *)
Definition int_max_str_digits : Z := 4300.

(** [int(s)] for a [str] of ASCII characters: [None] is [ValueError].
    White space around the literal is skipped, a sign may come first, and
    a literal of more digits than [int_max_str_digits] is refused. *)
Definition int (s : string) : option Z :=
  let t := rskip (lskip s) in
  if count_digits t >? int_max_str_digits then None
  else match t with
       | String "-" t' => option_map Z.opp (digits false 0 t')
       | String "+" t' => digits false 0 t'
       | _ => digits false 0 t
       end.

(** [math.ceil(a / b)] for integers [a >= 0] and [b > 0]; the one divisor
    the views pass is [POSTS_COUNT].  For [b = 0] Python raises
    [ZeroDivisionError], which is not modelled. *)
Definition ceil_div (a b : Z) : Z := (a + b - 1) / b.

(** [l[bottom:top]] for [0 <= bottom]. *)
Definition slice {A} (l : list A) (bottom top : Z) : list A :=
  firstn (Z.to_nat (top - bottom)) (skipn (Z.to_nat bottom) l).

End Py.

(** [QueryDict]: the parsed query string or form body.  [get] returns the
    last value given for the key. *)
Definition QueryDict := list (string * string).

Fixpoint QueryDict_get (d : QueryDict) (k : string) : option string :=
  match d with
  | [] => None
  | (k', v) :: d' =>
      match QueryDict_get d' k with
      | Some v' => Some v'
      | None => if String.eqb k' k then Some v else None
      end
  end.

(** Python truth of a dictionary: [d or None]. *)
Definition or_None (d : QueryDict) : option QueryDict :=
  match d with [] => None | _ => Some d end.

(* ===================================================================== *)
(** * The data model ([models.py] is seen through its use in the views) *)
(* ===================================================================== *)

Record User := mkUser {
  user_id : Z;
  username : string }.

Record Group := mkGroup {
  group_id : Z;
  title : string;
  slug : string;
  description : string }.

Record Post := mkPost {
  post_id : Z;
  text : string;
  pub_date : Z;
  author : Z;            (* foreign key: User *)
  group : option Z;      (* foreign key: Group, nullable *)
  image : option string }.

Record Comment := mkComment {
  comment_id : Z;
  comment_text : string;
  comment_created : Z;
  comment_author : Z;    (* foreign key: User *)
  comment_post : Z }.    (* foreign key: Post *)

Record Follow := mkFollow {
  follow_id : Z;
  follow_user : Z;       (* foreign key: User, the follower *)
  follow_author : Z }.   (* foreign key: User, the followed author *)

(** [request.user]: the session's user, or Django's [AnonymousUser]. *)
Inductive request_user :=
| AnonymousUser
| AuthUser (u : User).

Definition is_authenticated (u : request_user) : bool :=
  match u with AnonymousUser => false | AuthUser _ => true end.

Inductive http_method := GET | POST.

Record HttpRequest := mkRequest {
  method : http_method;
  path : string;
  query_string : string;
  req_GET : QueryDict;
  req_POST : QueryDict;
  req_FILES : QueryDict;
  user : request_user }.

Definition get_full_path (r : HttpRequest) : string :=
  match query_string r with
  | EmptyString => path r
  | q => path r ++ "?" ++ q
  end.

(** Named routes of [urls.py], the targets of [redirect]. *)
Inductive route :=
| posts_index
| posts_profile (username : string)
| posts_post_detail (post_id : Z).

Inductive location :=
| ToRoute (r : route)
| ToLogin (login_url : string) (redirect_field_name : string) (next : string).

(** The query parameter [k] of a redirect location. *)
Definition location_param (l : location) (k : string) : option string :=
  match l with
  | ToRoute _ => None
  | ToLogin _ f n => if String.eqb f k then Some n else None
  end.

(* ===================================================================== *)
(** * django.core.paginator *)
(* ===================================================================== *)

(** [Paginator(object_list, per_page)], with the defaults [orphans=0] and
    [allow_empty_first_page=True]. *)
Record Paginator := mkPaginator {
  object_list : list Post;
  per_page : Z;
  orphans : Z;
  allow_empty_first_page : bool }.

Record Page := mkPage {
  page_object_list : list Post;
  number : Z;
  paginator : Paginator }.

Inductive paginator_error := PageNotAnInteger | EmptyPage.

Definition count (p : Paginator) : Z := Z.of_nat (List.length (object_list p)).

Definition num_pages (p : Paginator) : Z :=
  if (count p =? 0) && negb (allow_empty_first_page p) then 0
  else Py.ceil_div (Z.max 1 (count p - orphans p)) (per_page p).

(** [validate_number] on a number that is already an [int]. *)
Definition validate_int (p : Paginator) (n : Z) : paginator_error + Z :=
  if n <? 1 then inl EmptyPage
  else if n >? num_pages p
       then if (n =? 1) && allow_empty_first_page p then inr n
            else inl EmptyPage
       else inr n.

(** [validate_number] on the raw value of the query parameter, [None]
    when the parameter is absent: [int(number)] comes first. *)
Definition validate_number (p : Paginator) (raw : option string)
  : paginator_error + Z :=
  match match raw with Some s => Py.int s | None => None end with
  | None => inl PageNotAnInteger
  | Some n => validate_int p n
  end.

Definition page (p : Paginator) (n : Z) : paginator_error + Page :=
  match validate_int p n with
  | inl e => inl e
  | inr n =>
      let bottom := (n - 1) * per_page p in
      let top := bottom + per_page p in
      let top := if top + orphans p >=? count p then count p else top in
      inr (mkPage (Py.slice (object_list p) bottom top) n p)
  end.

(** The page number [get_page] goes on with after [validate_number]:
    the first page for what is no integer, the last for what is out of
    range. *)
Definition settled (p : Paginator) (raw : option string) : Z :=
  match validate_number p raw with
  | inr n => n
  | inl PageNotAnInteger => 1
  | inl EmptyPage => num_pages p
  end.

Definition get_page (p : Paginator) (raw : option string)
  : paginator_error + Page :=
  page p (settled p raw).

(** [len(page_obj)]. *)
Definition Page_len (pg : Page) : nat := List.length (page_object_list pg).

Definition has_next (pg : Page) : bool := number pg <? num_pages (paginator pg).
Definition has_previous (pg : Page) : bool := number pg >? 1.

(* ===================================================================== *)
(** * Forms ([forms.py]) *)
(* ===================================================================== *)

Record PostForm := mkPostForm {
  pf_data : option QueryDict;
  pf_files : option QueryDict;
  pf_instance : option Post }.

Record CommentForm := mkCommentForm {
  cf_data : option QueryDict }.

(** A bound field's submitted value, white space stripped as a form
    [CharField] does; an absent key reads as the empty string. *)
Definition field_value (d : option QueryDict) (k : string) : string :=
  match d with
  | Some q => match QueryDict_get q k with Some v => Py.strip v | None => "" end
  | None => ""
  end.

(** Modelled from the spec: the validation of [CommentForm], declared in
    [forms.py] (outside the files verified here).  The spec makes [text]
    the one field of a comment and a required one: "fails with
    ValidationError on empty text".  The result lists the fields in error
    with the error code. *)
Definition CommentForm_errors (f : CommentForm) : list (string * string) :=
  match field_value (cf_data f) "text" with
  | EmptyString => [("text", "required")]
  | _ => []
  end.

Definition CommentForm_is_bound (f : CommentForm) : bool :=
  match cf_data f with Some _ => true | None => false end.

Definition CommentForm_is_valid (f : CommentForm) : bool :=
  CommentForm_is_bound f &&
  match CommentForm_errors f with [] => true | _ => false end.

(** Modelled from the spec: the validation of [PostForm], declared in
    [forms.py] (outside the files verified here).  The spec gives a post a
    required non-empty [text], an optional [group] that references an
    existing Group, and an optional [image]; [groups] are the rows of the
    Group table the choice is validated against. *)
Definition PostForm_group (groups : list Group) (f : PostForm)
  : option (option Z) :=
  match field_value (pf_data f) "group" with
  | EmptyString => Some None
  | v => match Py.int v with
         | Some g => if existsb (fun x => group_id x =? g) groups
                     then Some (Some g) else None
         | None => None
         end
  end.

(** Modelled from the spec: the fields of a [PostForm] in error, [text]
    when it is empty and [group] when it names no existing Group
    ([forms.py] is outside the files verified here). *)
Definition PostForm_errors (groups : list Group) (f : PostForm)
  : list (string * string) :=
  (match field_value (pf_data f) "text" with
   | EmptyString => [("text", "required")]
   | _ => []
   end ++
   match PostForm_group groups f with
   | Some _ => []
   | None => [("group", "invalid_choice")]
   end)%list.

Definition PostForm_is_bound (f : PostForm) : bool :=
  match pf_data f, pf_files f with None, None => false | _, _ => true end.

Definition PostForm_is_valid (groups : list Group) (f : PostForm) : bool :=
  PostForm_is_bound f &&
  match PostForm_errors groups f with [] => true | _ => false end.

(** Modelled from the spec: the image of a [PostForm] ([forms.py] and
    [models.py] are outside the files verified here).  The spec has the
    store hold "only a reference path" to the uploaded file; the path is
    under [posts/], where the tests of the forms read it back.  [None]
    when the request carries no file for the field. *)
Definition PostForm_image (f : PostForm) : option string :=
  match pf_files f with
  | Some q => option_map (fun n => "posts/" ++ n) (QueryDict_get q "image")
  | None => None
  end.

(* ===================================================================== *)
(** * Responses *)
(* ===================================================================== *)

Inductive page_title :=
| Title (s : string)
| TitleOfGroup (prefix : string) (g : Group).   (* f'... {group}' *)

Inductive context :=
| ctx_index (title : page_title) (page_obj : Page)
| ctx_group_list (title : page_title) (group : Group) (page_obj : Page)
| ctx_profile (author : User) (post_list : list Post) (page_obj : Page)
              (following : bool)
| ctx_post_detail (post : Post) (comments : list Comment) (form : CommentForm)
| ctx_create_post (form : PostForm)
| ctx_edit_post (form : PostForm) (post_id : Z) (is_edit : bool)
| ctx_follow (title : page_title) (page_obj : Page).

Inductive HttpResponse :=
| render (template_name : string) (ctx : context)       (* status 200 *)
| HttpResponseRedirect (redirect_to : location).        (* status 302 *)

(** The posts a rendered feed shows: its [page_obj]. *)
Definition context_page_obj (c : context) : option Page :=
  match c with
  | ctx_index _ pg | ctx_group_list _ _ pg | ctx_profile _ _ pg _
  | ctx_follow _ pg => Some pg
  | _ => None
  end.

Definition response_posts (r : HttpResponse) : list Post :=
  match r with
  | render _ c =>
      match context_page_obj c with
      | Some pg => page_object_list pg
      | None => []
      end
  | HttpResponseRedirect _ => []
  end.

(* ===================================================================== *)
(** * The world a request runs in *)
(* ===================================================================== *)

(** A cached response and the time it expires at. *)
Record cache_entry := mkEntry {
  expires : Z;
  cached : HttpResponse }.

(** The key of a cached page: the decorator's [key_prefix] and the URL
    of the request (path and query string). *)
Definition cache_key := (string * string)%type.

Record World := mkWorld {
  users : list User;
  groups : list Group;
  posts : list Post;
  comments : list Comment;
  follows : list Follow;
  cache : list (cache_key * cache_entry);
  clock : Z }.

Definition set_posts (f : list Post -> list Post) (w : World) : World :=
  mkWorld (users w) (groups w) (f (posts w)) (comments w) (follows w)
          (cache w) (clock w).

Definition set_comments (f : list Comment -> list Comment) (w : World) : World :=
  mkWorld (users w) (groups w) (posts w) (f (comments w)) (follows w)
          (cache w) (clock w).

Definition set_follows (f : list Follow -> list Follow) (w : World) : World :=
  mkWorld (users w) (groups w) (posts w) (comments w) (f (follows w))
          (cache w) (clock w).

Definition set_cache (f : list (cache_key * cache_entry) ->
                          list (cache_key * cache_entry)) (w : World) : World :=
  mkWorld (users w) (groups w) (posts w) (comments w) (follows w)
          (f (cache w)) (clock w).

(** Time passes between requests. *)
Definition advance (dt : Z) (w : World) : World :=
  mkWorld (users w) (groups w) (posts w) (comments w) (follows w)
          (cache w) (clock w + dt).

(** ** Exceptions and the monad of a view *)

Inductive exn :=
| DoesNotExist
| MultipleObjectsReturned
| Http404
| TypeError
| ValueError
| IntegrityError
| PaginatorError (e : paginator_error).

Inductive outcome (A : Type) :=
| Ok (a : A)
| Raise (e : exn).
Arguments Ok {A} a.
Arguments Raise {A} e.

Definition M (A : Type) : Type := World -> outcome A * World.

Definition ret {A} (a : A) : M A := fun w => (Ok a, w).
Definition raise {A} (e : exn) : M A := fun w => (Raise e, w).
Definition bind {A B} (m : M A) (k : A -> M B) : M B :=
  fun w => match m w with
           | (Ok a, w') => k a w'
           | (Raise e, w') => (Raise e, w')
           end.
Definition gets {A} (f : World -> A) : M A := fun w => (Ok (f w), w).
Definition modify (f : World -> World) : M unit := fun w => (Ok tt, f w).
Definition lift {A} (o : outcome A) : M A := fun w => (o, w).

Declare Scope view_scope.
Delimit Scope view_scope with view.
Notation "x <- m ;; k" := (bind m (fun x => k))
  (at level 61, m at next level, right associativity) : view_scope.
Notation "m ;;; k" := (bind m (fun _ => k))
  (at level 61, right associativity) : view_scope.
Local Open Scope view_scope.

(* ===================================================================== *)
(** * The ORM *)
(* ===================================================================== *)

(** [Manager.get]: exactly one row must match. *)
Definition objects_get {A} (rows : list A) : outcome A :=
  match rows with
  | [] => Raise DoesNotExist
  | [x] => Ok x
  | _ => Raise MultipleObjectsReturned
  end.

(** [get_object_or_404]: [DoesNotExist] becomes [Http404]. *)
Definition get_object_or_404 {A} (rows : list A) : outcome A :=
  match objects_get rows with
  | Raise DoesNotExist => Raise Http404
  | o => o
  end.

(** [-pub_date]: insertion of a row before the first row that is not
    newer, which keeps rows of equal date in their stored order. *)
Fixpoint insert_desc (p : Post) (l : list Post) : list Post :=
  match l with
  | [] => [p]
  | q :: l' => if pub_date q <=? pub_date p then p :: l
               else q :: insert_desc p l'
  end.

Fixpoint order_by_pub_date_desc (l : list Post) : list Post :=
  match l with
  | [] => []
  | p :: l' => insert_desc p (order_by_pub_date_desc l')
  end.

Inductive ordering := pub_date_desc.   (* '-pub_date' *)

(** Modelled from the spec: the default ordering of Post, declared by the
    [Meta] of the model in [models.py] (outside the files verified here).
    The spec gives the group, profile and follow feeds the "same ordering"
    as the site feed, [created_at] descending, and their views ask for no
    ordering of their own. *)
Definition Post_Meta_ordering : option ordering := Some pub_date_desc.

Definition apply_ordering (o : option ordering) (l : list Post) : list Post :=
  match o with
  | Some pub_date_desc => order_by_pub_date_desc l
  | None => l
  end.

(** A queryset of posts the view did not order comes in the model's
    default ordering. *)
Definition Post_queryset (keep : Post -> bool) : M (list Post) :=
  rows <- gets posts ;;
  ret (apply_ordering Post_Meta_ordering (filter keep rows)).

(** [Post.objects.all().order_by('-pub_date')]: [order_by] replaces the
    default ordering. *)
Definition Post_objects_all_order_by_pub_date_desc : M (list Post) :=
  rows <- gets posts ;;
  ret (order_by_pub_date_desc rows).

(** [group.posts.all()] *)
Definition group_posts_all (g : Group) : M (list Post) :=
  Post_queryset (fun p => match group p with
                          | Some i => i =? group_id g
                          | None => false
                          end).

(** [Post.objects.filter(author=author)] *)
Definition Post_objects_filter_author (a : User) : M (list Post) :=
  Post_queryset (fun p => author p =? user_id a).

(** The value of a filter on a foreign key to User must be a User;
    [AnonymousUser] is no model instance, and building the lookup from it
    raises [TypeError]. *)
Definition User_of (u : request_user) : outcome User :=
  match u with
  | AuthUser x => Ok x
  | AnonymousUser => Raise TypeError
  end.

(** [Post.objects.filter(author__following__user=user)]: the posts joined
    with the Follow rows of their author ([following] is the reverse name
    of [Follow.author]), one result per matching row. *)
Definition Post_objects_filter_author__following__user (u : request_user)
  : M (list Post) :=
  x <- lift (User_of u) ;;
  rows <- gets posts ;;
  fs <- gets follows ;;
  ret (apply_ordering Post_Meta_ordering
         (flat_map (fun p =>
            map (fun _ => p)
                (filter (fun f => (follow_author f =? author p) &&
                                  (follow_user f =? user_id x)) fs)) rows)).

(** [User.objects.get(username=username)] *)
Definition User_objects_get_username (name : string) : M User :=
  rows <- gets users ;;
  lift (objects_get (filter (fun u => String.eqb (username u) name) rows)).

(** [Post.objects.get(pk=post_id)] *)
Definition Post_objects_get_pk (pk : Z) : M Post :=
  rows <- gets posts ;;
  lift (objects_get (filter (fun p => post_id p =? pk) rows)).

(** [get_object_or_404(Group, slug=slug)] *)
Definition get_Group_or_404_slug (s : string) : M Group :=
  rows <- gets groups ;;
  lift (get_object_or_404 (filter (fun g => String.eqb (slug g) s) rows)).

(** [Comment.objects.filter(post=post.id)].  The view asks for no
    ordering, and the default ordering of Comment, if it has one, is
    declared in [models.py], outside the files verified here; the spec
    gives the comments no order either.  The rows come in the order they
    are stored in, and no statement below says in which order comments
    are listed. *)
Definition Comment_objects_filter_post (pk : Z) : M (list Comment) :=
  rows <- gets comments ;;
  ret (filter (fun c => comment_post c =? pk) rows).

Definition follow_matches (u a : User) (f : Follow) : bool :=
  (follow_user f =? user_id u) && (follow_author f =? user_id a).

(** [Follow.objects.filter(user=user, author=author)] *)
Definition Follow_objects_filter (u : request_user) (a : User)
  : M (list Follow) :=
  x <- lift (User_of u) ;;
  rows <- gets follows ;;
  ret (filter (follow_matches x a) rows).

(** [Follow.objects.filter(user=user, author=author).delete()] *)
Definition Follow_objects_filter_delete (u : request_user) (a : User) : M unit :=
  x <- lift (User_of u) ;;
  modify (set_follows (filter (fun f => negb (follow_matches x a f)))).

(** The primary key of a new row: one past the largest in use, so a key
    no row of the table has.  (A database sequence would not hand out
    the key of a deleted last row again; the statements below use only
    that the key is not in use.) *)
Definition next_pk (pks : list Z) : Z := 1 + fold_right Z.max 0 pks.

(** Modelled from the spec: saving a new Follow under the constraints of
    the model in [models.py] (outside the files verified here).  The spec
    has the pair unique and no user following themself, and has the store
    reject a violation (its ConflictError; a violated constraint is
    Django's [IntegrityError]) without a row being written. *)
Definition Follow_save (u a : User) : M unit :=
  rows <- gets follows ;;
  if existsb (follow_matches u a) rows || (user_id u =? user_id a)
  then raise IntegrityError
  else modify (set_follows (fun fs =>
         fs ++ [mkFollow (next_pk (map follow_id fs)) (user_id u) (user_id a)])%list).

(** [post.save()] of a new post; [pub_date] is the time of creation. *)
Definition Post_save_new (txt : string) (a : User) (g : option Z)
           (img : option string) : M unit :=
  now <- gets clock ;;
  modify (set_posts (fun ps =>
    ps ++ [mkPost (next_pk (map post_id ps)) txt now (user_id a) g img])%list).

(** [form.save()] of a form bound to an existing post: the form's fields
    are written to the row, [pub_date] and [author] stay. *)
Definition Post_save_update (pk : Z) (txt : string) (g : option Z)
           (img : option string) : M unit :=
  modify (set_posts (map (fun p =>
    if post_id p =? pk
    then mkPost (post_id p) txt (pub_date p) (author p) g
                (match img with Some _ => img | None => image p end)
    else p))).

(** [comment.save()] of a new comment. *)
Definition Comment_save_new (txt : string) (a : User) (p : Post) : M unit :=
  now <- gets clock ;;
  modify (set_comments (fun cs =>
    cs ++ [mkComment (next_pk (map comment_id cs)) txt now (user_id a)
                     (post_id p)])%list).

(** Modelled from the spec: [post.delete()]; the cascade to the comments of
    the post is declared in [models.py] (outside the files verified here):
    "Deleting a Post cascades to delete its Comments". *)
Definition Post_delete (pk : Z) (w : World) : World :=
  set_comments (filter (fun c => negb (comment_post c =? pk)))
    (set_posts (filter (fun p => negb (post_id p =? pk))) w).

(** [cache.clear()] *)
Definition cache_clear (w : World) : World := set_cache (fun _ => []) w.

(* ===================================================================== *)
(** * posts/utils.py *)
(* ===================================================================== *)

Definition get_page_obj (post_list : list Post) (posts_count : Z)
           (request : HttpRequest) : M Page :=
  let paginator := mkPaginator post_list posts_count 0 true in
  let page_number := QueryDict_get (req_GET request) "page" in
  match get_page paginator page_number with
  | inr pg => ret pg
  | inl e => raise (PaginatorError e)
  end.

(* ===================================================================== *)
(** * Decorators *)
(* ===================================================================== *)

(** Modelled from the spec: [settings.LOGIN_URL] ([settings.py] is
    outside the files verified here); the spec sends an unauthenticated
    request to "a login view", and the tests of the forms and of the URLs
    expect it at this address. *)
Definition LOGIN_URL : string := "/auth/login/".

(** [@login_required]: an unauthenticated request is answered with a
    redirect to the login URL that carries the requested URL as [next]. *)
Definition login_required (request : HttpRequest) (view : M HttpResponse)
  : M HttpResponse :=
  if is_authenticated (user request) then view
  else ret (HttpResponseRedirect
              (ToLogin LOGIN_URL "next" (get_full_path request))).

(** An entry is served while the clock is before its expiry. *)
Fixpoint cache_get (c : list (cache_key * cache_entry)) (k : cache_key)
         (now : Z) : option HttpResponse :=
  match c with
  | [] => None
  | ((p, u), e) :: c' =>
      if String.eqb p (fst k) && String.eqb u (snd k)
      then if now <? expires e then Some (cached e) else None
      else cache_get c' k now
  end.

Definition cache_set (k : cache_key) (r : HttpResponse) (timeout : Z) : M unit :=
  now <- gets clock ;;
  modify (set_cache (fun c => (k, mkEntry (now + timeout) r) :: c)).

(** [@cache_page(timeout, key_prefix=...)]: a GET is answered from the
    cache when it holds a live entry for the URL; otherwise the view runs
    and its response, when it is a 200, is stored for [timeout] seconds. *)
Definition cache_page (timeout : Z) (key_prefix : string)
           (view : HttpRequest -> M HttpResponse) (request : HttpRequest)
  : M HttpResponse :=
  match method request with
  | POST => view request
  | GET =>
      let key := (key_prefix, get_full_path request) in
      now <- gets clock ;;
      c <- gets cache ;;
      match cache_get c key now with
      | Some response => ret response
      | None =>
          response <- view request ;;
          match response with
          | render _ _ =>
              if timeout =? 0 then ret response
              else cache_set key response timeout ;;; ret response
          | HttpResponseRedirect _ => ret response
          end
      end
  end.

(* ===================================================================== *)
(** * posts/views.py *)
(* ===================================================================== *)

Definition POSTS_COUNT : Z := 10.

Definition index_view (request : HttpRequest) : M HttpResponse :=
  post_list <- Post_objects_all_order_by_pub_date_desc ;;
  page_obj <- get_page_obj post_list POSTS_COUNT request ;;
  ret (render "posts/index.html"
         (ctx_index (Title "Последние обновления на сайте") page_obj)).

Definition index : HttpRequest -> M HttpResponse :=
  cache_page 20 "index_page" index_view.

Definition group_posts (request : HttpRequest) (slug : string)
  : M HttpResponse :=
  group <- get_Group_or_404_slug slug ;;
  post_list <- group_posts_all group ;;
  page_obj <- get_page_obj post_list POSTS_COUNT request ;;
  ret (render "posts/group_list.html"
         (ctx_group_list (TitleOfGroup "Записи сообщества " group)
                         group page_obj)).

Definition profile (request : HttpRequest) (username : string)
  : M HttpResponse :=
  author <- User_objects_get_username username ;;
  post_list <- Post_objects_filter_author author ;;
  page_obj <- get_page_obj post_list POSTS_COUNT request ;;
  follow <- Follow_objects_filter (user request) author ;;
  let following := match follow with [] => false | _ => true end in
  ret (render "posts/profile.html"
         (ctx_profile author post_list page_obj following)).

Definition post_detail (request : HttpRequest) (post_pk : Z)
  : M HttpResponse :=
  post <- Post_objects_get_pk post_pk ;;
  comment_list <- Comment_objects_filter_post (post_id post) ;;
  let form := mkCommentForm None in
  ret (render "posts/post_detail.html"
         (ctx_post_detail post comment_list form)).

(** Assigning [request.user] to a foreign key to User: a User is needed,
    [AnonymousUser] is refused with [ValueError]. *)
Definition assign_user (u : request_user) : outcome User :=
  match u with
  | AuthUser x => Ok x
  | AnonymousUser => Raise ValueError
  end.

(** [post.author == request.user]: model instances are equal when their
    primary keys are. *)
Definition author_is (p : Post) (u : request_user) : bool :=
  match u with
  | AuthUser x => author p =? user_id x
  | AnonymousUser => false
  end.

Definition is_POST (request : HttpRequest) : bool :=
  match method request with POST => true | GET => false end.

(** A view that falls off its end returns [None], which the handler
    refuses with [ValueError]. *)
Definition returns_None : M HttpResponse := raise ValueError.

Definition post_create_view (request : HttpRequest) : M HttpResponse :=
  let form := mkPostForm (or_None (req_POST request))
                         (or_None (req_FILES request)) None in
  gs <- gets groups ;;
  if negb (is_POST request) || negb (PostForm_is_valid gs form)
  then ret (render "posts/create_post.html" (ctx_create_post form))
  else if PostForm_is_valid gs form
  then
    author <- lift (assign_user (user request)) ;;
    Post_save_new (field_value (pf_data form) "text") author
                  (match PostForm_group gs form with Some g => g | None => None end)
                  (PostForm_image form) ;;;
    ret (HttpResponseRedirect (ToRoute (posts_profile (username author))))
  else returns_None.

Definition post_create (request : HttpRequest) : M HttpResponse :=
  login_required request (post_create_view request).

Definition post_edit_view (request : HttpRequest) (post_pk : Z)
  : M HttpResponse :=
  post <- Post_objects_get_pk post_pk ;;
  let form := mkPostForm (or_None (req_POST request))
                         (or_None (req_FILES request)) (Some post) in
  gs <- gets groups ;;
  if negb (author_is post (user request))
  then ret (HttpResponseRedirect (ToRoute (posts_post_detail post_pk)))
  else if negb (is_POST request) || negb (PostForm_is_valid gs form)
  then ret (render "posts/create_post.html" (ctx_edit_post form post_pk true))
  else if PostForm_is_valid gs form
  then
    Post_save_update (post_id post) (field_value (pf_data form) "text")
                     (match PostForm_group gs form with Some g => g | None => None end)
                     (PostForm_image form) ;;;
    ret (HttpResponseRedirect (ToRoute (posts_post_detail post_pk)))
  else returns_None.

Definition post_edit (request : HttpRequest) (post_pk : Z) : M HttpResponse :=
  login_required request (post_edit_view request post_pk).

Definition add_comment_view (request : HttpRequest) (post_pk : Z)
  : M HttpResponse :=
  post <- Post_objects_get_pk post_pk ;;
  let form := mkCommentForm (or_None (req_POST request)) in
  (if CommentForm_is_valid form
   then author <- lift (assign_user (user request)) ;;
        Comment_save_new (field_value (cf_data form) "text") author post
   else ret tt) ;;;
  ret (HttpResponseRedirect (ToRoute (posts_post_detail post_pk))).

Definition add_comment (request : HttpRequest) (post_pk : Z) : M HttpResponse :=
  login_required request (add_comment_view request post_pk).

Definition follow_index_view (request : HttpRequest) : M HttpResponse :=
  post_list <- Post_objects_filter_author__following__user (user request) ;;
  page_obj <- get_page_obj post_list POSTS_COUNT request ;;
  ret (render "posts/follow.html"
         (ctx_follow (Title "Последние обновления на сайте") page_obj)).

Definition follow_index (request : HttpRequest) : M HttpResponse :=
  login_required request (follow_index_view request).

Definition profile_follow_view (request : HttpRequest) (username : string)
  : M HttpResponse :=
  author <- User_objects_get_username username ;;
  follower <- lift (assign_user (user request)) ;;
  Follow_save follower author ;;;
  ret (HttpResponseRedirect (ToRoute (posts_profile username))).

Definition profile_follow (request : HttpRequest) (username : string)
  : M HttpResponse :=
  login_required request (profile_follow_view request username).

Definition profile_unfollow_view (request : HttpRequest) (username : string)
  : M HttpResponse :=
  author <- User_objects_get_username username ;;
  Follow_objects_filter_delete (user request) author ;;;
  ret (HttpResponseRedirect (ToRoute (posts_profile username))).

Definition profile_unfollow (request : HttpRequest) (username : string)
  : M HttpResponse :=
  login_required request (profile_unfollow_view request username).

(* ===================================================================== *)
(** * The boundary of a request *)
(* ===================================================================== *)

(** What the client is served: the view's response; the 404 page when the
    view raised [Http404]; a server error (status 500) for any other
    exception, which nothing in the application catches. *)
Inductive served :=
| Response (r : HttpResponse)
| NotFound404
| ServerError500 (e : exn).

Definition get_response (view : M HttpResponse) (w : World) : served * World :=
  match view w with
  | (Ok r, w') => (Response r, w')
  | (Raise Http404, w') => (NotFound404, w')
  | (Raise e, w') => (ServerError500 e, w')
  end.

(** The response shows validation errors on a form: it is a rendered page
    whose form is bound and has fields in error. *)
Definition shows_form_errors (gs : list Group) (r : HttpResponse) : bool :=
  match r with
  | render _ (ctx_post_detail _ _ f) =>
      CommentForm_is_bound f && negb (CommentForm_is_valid f)
  | render _ (ctx_create_post f) | render _ (ctx_edit_post f _ _) =>
      PostForm_is_bound f && negb (PostForm_is_valid gs f)
  | _ => false
  end.

(** A Follow row for the pair exists. *)
Definition follows_pair (w : World) (u a : User) : bool :=
  existsb (follow_matches u a) (follows w).

(** The number of Follow rows for the pair. *)
Definition count_pair (w : World) (u a : User) : nat :=
  List.length (filter (follow_matches u a) (follows w)).

(** Newest first. *)
Definition newest_first (l : list Post) : Prop :=
  StronglySorted (fun p q => pub_date q <= pub_date p) l.

(** The [following] flag of a rendered profile page. *)
Definition following_flag (r : outcome HttpResponse) : option bool :=
  match r with
  | Ok (render _ (ctx_profile _ _ _ b)) => Some b
  | _ => None
  end.

(** A page of the site feed, newest first. *)
Definition index_page (r : HttpResponse) : Prop :=
  exists t pg, r = render "posts/index.html" (ctx_index t pg) /\
               newest_first (page_object_list pg).

(** Every response the cache holds is such a page. *)
Definition cache_of_index_pages (w : World) : Prop :=
  Forall (fun e => index_page (cached (snd e))) (cache w).

(** ** The fixture of the tests *)

Definition auth : User := mkUser 1 "auth".
Definition followed_user : User := mkUser 2 "followed".

Definition test_group : Group :=
  mkGroup 1 "Test group" "testslug" "Test description".

Definition test_post : Post := mkPost 1 "Text" 100 1 (Some 1) None.
Definition cache_post : Post := mkPost 2 "Cache check" 200 1 None None.

Definition fixture : World :=
  mkWorld [auth; followed_user] [test_group] [test_post] [] [] [] 300.

(** The query string of the parameters of a test request; the names and
    values the tests use need no escaping. *)
Fixpoint urlencode (q : QueryDict) : string :=
  match q with
  | [] => ""
  | [(k, v)] => k ++ "=" ++ v
  | (k, v) :: q' => k ++ "=" ++ v ++ "&" ++ urlencode q'
  end.

(** Requests of the test clients. *)
Definition client_get (who : request_user) (url : string) (q : QueryDict)
  : HttpRequest :=
  mkRequest GET url (urlencode q) q [] [] who.

Definition client_post (who : request_user) (url : string) (data : QueryDict)
  : HttpRequest :=
  mkRequest POST url "" [] data [] who.

(** The twelve posts [test_paginator] creates. *)
Definition twelve_posts : list Post :=
  map (fun i => mkPost (Z.of_nat i + 2) "Text" (Z.of_nat i + 101) 1 (Some 1) None)
      (seq 0 12).

(** The store of [test_cache_index]: the fixture and the post of the test. *)
Definition cache_fixture : World :=
  set_posts (fun ps => ps ++ [cache_post])%list fixture.

(** The requests the test clients send. *)
Definition follow_request : HttpRequest :=
  client_get (AuthUser auth) "/profile/followed/follow/" [].

Definition wrong_client_edit : HttpRequest :=
  client_post (AuthUser followed_user) "/posts/1/edit/"
                             [("text", "Edited"); ("group", "")].

Definition guest_create : HttpRequest :=
  client_post AnonymousUser "/create/"
                             [("text", "Guest text"); ("group", "")].

Definition unfollow_request : HttpRequest :=
  client_get (AuthUser auth) "/profile/followed/unfollow/" [].

Definition index_request : HttpRequest :=
  client_get (AuthUser auth) "/" [].

Definition empty_comment : HttpRequest :=
  client_post (AuthUser auth) "/posts/1/comment/" [("text", "")].

Definition page1_request : HttpRequest :=
  client_get (AuthUser auth) "/" [("page", "1")].

Definition page2_request : HttpRequest :=
  client_get (AuthUser auth) "/" [("page", "2")].


(* ===================================================================== *)
(** * What a feed is, and what happens between two requests *)
(* ===================================================================== *)

(** The page is a page of the feed: the paginator was given the whole
    feed, the number of the page is one of its pages, and the page holds
    the posts of the feed at the positions [10(n-1)] to [10n-1]. *)
Definition page_of_feed (pg : Page) (feed : list Post) : Prop :=
  object_list (paginator pg) = feed /\
  1 <= number pg <= num_pages (paginator pg) /\
  page_object_list pg
    = firstn 10 (skipn (Z.to_nat (10 * (number pg - 1))) feed).

(** The post belongs to the group. *)
Definition in_group (g : Group) (p : Post) : bool :=
  match group p with
  | Some i => i =? group_id g
  | None => false
  end.

(** The post was written by the user. *)
Definition written_by (a : User) (p : Post) : bool := author p =? user_id a.

(** The user follows the author of the post. *)
Definition follows_author_of (w : World) (u : User) (x : Post) : Prop :=
  exists f, In f (follows w) /\
            follow_user f = user_id u /\ follow_author f = author x.

(** A request to one of the views of [views.py]. *)
Inductive call :=
| call_index (request : HttpRequest)
| call_group_posts (request : HttpRequest) (slug : string)
| call_profile (request : HttpRequest) (username : string)
| call_post_detail (request : HttpRequest) (post_pk : Z)
| call_post_create (request : HttpRequest)
| call_post_edit (request : HttpRequest) (post_pk : Z)
| call_add_comment (request : HttpRequest) (post_pk : Z)
| call_follow_index (request : HttpRequest)
| call_profile_follow (request : HttpRequest) (username : string)
| call_profile_unfollow (request : HttpRequest) (username : string).

Definition serve (c : call) : M HttpResponse :=
  match c with
  | call_index r => index r
  | call_group_posts r s => group_posts r s
  | call_profile r n => profile r n
  | call_post_detail r k => post_detail r k
  | call_post_create r => post_create r
  | call_post_edit r k => post_edit r k
  | call_add_comment r k => add_comment r k
  | call_follow_index r => follow_index r
  | call_profile_follow r n => profile_follow r n
  | call_profile_unfollow r n => profile_unfollow r n
  end.

(** What may happen to the world without the cache being cleared: a
    request to a view is served, a post is deleted, time passes. *)
Inductive event :=
| Request (c : call)
| Delete (post_pk : Z)
| Wait (seconds : Z).

Definition happen (e : event) (w : World) : World :=
  match e with
  | Request c => snd (serve c w)
  | Delete pk => Post_delete pk w
  | Wait dt => advance dt w
  end.

Fixpoint run (h : list event) (w : World) : World :=
  match h with
  | [] => w
  | e :: h' => run h' (happen e w)
  end.





(** The posts on the page a view answered with, none when it raised. *)
Definition shown (o : outcome HttpResponse * World) : list Post :=
  match fst o with
  | Ok r => response_posts r
  | Raise _ => []
  end.

(** ** A store with several posts *)

Definition third_user : User := mkUser 3 "third".
Definition other_group : Group := mkGroup 2 "Other group" "otherslug" "Other".

Definition feeds_fixture : World :=
  mkWorld [auth; followed_user; third_user] [test_group; other_group]
          [mkPost 1 "First" 100 1 (Some 1) None;
           mkPost 2 "Second" 300 2 (Some 1) None;
           mkPost 3 "Third" 200 1 None None;
           mkPost 4 "Fourth" 250 3 (Some 2) None]
          [] [mkFollow 1 1 2] [] 400.

(** The site feed asked for by its second URL for the first page. *)
Definition page1_url_request : HttpRequest :=
  mkRequest GET "/" "page=1" [("page", "1")] [] [] AnonymousUser.

(** The site feed asked for by a client that is not logged in. *)
Definition guest_index_request : HttpRequest :=
  mkRequest GET "/" "" [] [] [] AnonymousUser.

(** What happens in [test_cache_index] and around it between two
    requests for the site feed: the post of the test is deleted, five
    seconds pass, another URL of the feed is asked for, a comment is
    posted, ten more seconds pass. *)
Definition cache_history : list event :=
  [Delete 2; Wait 5; Request (call_index page1_url_request);
   Request (call_add_comment empty_comment 1); Wait 10].

(* ===================================================================== *)
(** * Vocabulary of the further properties *)
(* ===================================================================== *)

(** The paginator [get_page_obj] builds for a list of posts. *)
Definition feed_paginator (post_list : list Post) : Paginator :=
  mkPaginator post_list POSTS_COUNT 0 true.

(** The posts on the page a computation returned, none when it raised. *)
Definition page_of (o : outcome Page * World) : list Post :=
  match fst o with
  | Ok pg => page_object_list pg
  | Raise _ => []
  end.

(** The raw [page] parameter of a request is an ASCII string that
    [int()] reads as the integer [k]. *)
Definition asks_page (request : HttpRequest) (k : Z) : Prop :=
  exists s, QueryDict_get (req_GET request) "page" = Some s /\
            Py.is_ascii s = true /\
            Py.int s = Some k.

(** The request has no [page] parameter, or an ASCII string that [int()]
    refuses, and not for its length: the string is too short for the
    limit on the digits of a literal to matter. *)
Definition asks_no_page (request : HttpRequest) : Prop :=
  match QueryDict_get (req_GET request) "page" with
  | Some s => Py.is_ascii s = true /\
              (String.length s <=? 4300)%nat = true /\
              Py.int s = None
  | None => True
  end.

(** The [k]-th run of ten posts of a list, [k] counted from 1. *)
Definition tenth (post_list : list Post) (k : Z) : list Post :=
  firstn 10 (skipn (Z.to_nat (10 * (k - 1))) post_list).

(** A computation relates the world it starts in to the world it ends
    in, whatever it returns or raises. *)
Definition keeps {A} (R : World -> World -> Prop) (m : M A) : Prop :=
  forall w, R w (snd (m w)).

(** The worlds differ at most in the table of posts. *)
Definition only_posts (w w' : World) : Prop :=
  users w' = users w /\ groups w' = groups w /\ comments w' = comments w /\
  follows w' = follows w /\ cache w' = cache w /\ clock w' = clock w.

(** The worlds differ at most in the table of comments. *)
Definition only_comments (w w' : World) : Prop :=
  users w' = users w /\ groups w' = groups w /\ posts w' = posts w /\
  follows w' = follows w /\ cache w' = cache w /\ clock w' = clock w.

(** The worlds differ at most in the table of follows. *)
Definition only_follows (w w' : World) : Prop :=
  users w' = users w /\ groups w' = groups w /\ posts w' = posts w /\
  comments w' = comments w /\ cache w' = cache w /\ clock w' = clock w.

(** The worlds differ at most in the cache. *)
Definition only_cache (w w' : World) : Prop :=
  users w' = users w /\ groups w' = groups w /\ posts w' = posts w /\
  comments w' = comments w /\ follows w' = follows w /\ clock w' = clock w.

(** The form [post_create] builds from a request. *)
Definition create_form (request : HttpRequest) : PostForm :=
  mkPostForm (or_None (req_POST request)) (or_None (req_FILES request)) None.

(** The form [post_edit] builds from a request and the post. *)
Definition edit_form (request : HttpRequest) (p : Post) : PostForm :=
  mkPostForm (or_None (req_POST request)) (or_None (req_FILES request)) (Some p).

(** The form [add_comment] builds from a request. *)
Definition comment_form (request : HttpRequest) : CommentForm :=
  mkCommentForm (or_None (req_POST request)).

(** The posts on the page a view answered with, none when it raised. *)
Definition served_posts (o : outcome HttpResponse * World) : list Post :=
  match fst o with
  | Ok r => response_posts r
  | Raise _ => []
  end.

(** Further requests of the test clients. *)
Definition page99_request : HttpRequest :=
  mkRequest GET "/" "page=99" [("page", "99")] [] [] (AuthUser auth).

Definition page2_query_request : HttpRequest :=
  mkRequest GET "/" "page=2" [("page", "2")] [] [] (AuthUser auth).

Definition guest_follow : HttpRequest :=
  client_get AnonymousUser "/profile/followed/follow/" [].

Definition auth_create : HttpRequest :=
  client_post (AuthUser auth) "/create/" [("text", "Test text"); ("group", "")].

Definition auth_create_form : HttpRequest :=
  client_get (AuthUser auth) "/create/" [].

Definition auth_edit : HttpRequest :=
  client_post (AuthUser auth) "/posts/1/edit/"
              [("text", "Edited text"); ("group", "")].

Definition auth_edit_form : HttpRequest :=
  client_get (AuthUser auth) "/posts/1/edit/" [].

Definition auth_comment : HttpRequest :=
  client_post (AuthUser auth) "/posts/1/comment/" [("text", "Comment321")].

Definition page_abc_request : HttpRequest :=
  client_get (AuthUser auth) "/" [("page", "abc")].

Definition auth_follow_nobody : HttpRequest :=
  client_get (AuthUser auth) "/profile/nobody/follow/" [].

(** The request of the test client for the page [k] of a feed of two
    pages. *)
Definition two_pages (k : Z) : HttpRequest :=
  if k =? 1 then page1_request else page2_request.
(* ===================================================================== *)
(** * Ordering *)
(* ===================================================================== *)

Section Ordering.

Lemma In_firstn {A} (x : A) (n : nat) (l : list A) :
  In x (firstn n l) -> In x l.
Proof.
  intros Hx. rewrite <- (firstn_skipn n l). apply in_or_app. now left.
Qed.

Lemma In_skipn {A} (x : A) (n : nat) (l : list A) :
  In x (skipn n l) -> In x l.
Proof.
  intros Hx. rewrite <- (firstn_skipn n l). apply in_or_app. now right.
Qed.

Lemma insert_desc_In (p x : Post) (l : list Post) :
  In x (insert_desc p l) <-> x = p \/ In x l.
Proof.
  induction l as [|q l IH]; simpl.
  - intuition.
  - destruct (pub_date q <=? pub_date p); simpl.
    + intuition.
    + rewrite IH. intuition.
Qed.

Lemma order_by_pub_date_desc_In (x : Post) (l : list Post) :
  In x (order_by_pub_date_desc l) <-> In x l.
Proof.
  induction l as [|p l IH]; simpl.
  - tauto.
  - rewrite insert_desc_In, IH. intuition.
Qed.

Lemma insert_desc_perm (p : Post) (l : list Post) :
  Permutation (p :: l) (insert_desc p l).
Proof.
  induction l as [|q l IH]; simpl.
  - apply Permutation_refl.
  - destruct (pub_date q <=? pub_date p).
    + apply Permutation_refl.
    + eapply perm_trans; [apply perm_swap|]. now apply perm_skip.
Qed.

Lemma order_by_pub_date_desc_perm (l : list Post) :
  Permutation l (order_by_pub_date_desc l).
Proof.
  induction l as [|p l IH]; simpl.
  - apply perm_nil.
  - eapply perm_trans; [apply perm_skip, IH | apply insert_desc_perm].
Qed.

Lemma insert_desc_sorted (p : Post) (l : list Post) :
  newest_first l -> newest_first (insert_desc p l).
Proof.
  unfold newest_first.
  induction l as [|q l IH]; simpl; intros Hs.
  - constructor; [constructor | constructor].
  - destruct (Z.leb_spec (pub_date q) (pub_date p)) as [Hle|Hlt].
    + constructor; [exact Hs|].
      inversion Hs as [|? ? Hl Hq]; subst.
      constructor; [exact Hle|].
      eapply Forall_impl; [|exact Hq]. simpl. intros; lia.
    + inversion Hs as [|? ? Hl Hq]; subst.
      constructor; [now apply IH|].
      rewrite Forall_forall. intros x Hx.
      apply insert_desc_In in Hx as [->|Hx]; [lia|].
      rewrite Forall_forall in Hq. now apply Hq.
Qed.

Lemma order_by_pub_date_desc_sorted (l : list Post) :
  newest_first (order_by_pub_date_desc l).
Proof.
  induction l as [|p l IH]; simpl.
  - constructor.
  - now apply insert_desc_sorted.
Qed.

Lemma newest_first_skipn (n : nat) (l : list Post) :
  newest_first l -> newest_first (skipn n l).
Proof.
  unfold newest_first. revert l.
  induction n as [|n IH]; intros [|p l] Hs; simpl; auto.
  inversion Hs; subst. now apply IH.
Qed.

Lemma newest_first_firstn (n : nat) (l : list Post) :
  newest_first l -> newest_first (firstn n l).
Proof.
  unfold newest_first. revert l.
  induction n as [|n IH]; intros [|p l] Hs; simpl; try constructor.
  - inversion Hs; subst. now apply IH.
  - inversion Hs as [|? ? Hl Hp]; subst.
    rewrite Forall_forall in *. intros x Hx.
    apply Hp. eapply In_firstn; eauto.
Qed.

Lemma newest_first_slice (l : list Post) (bottom top : Z) :
  newest_first l -> newest_first (Py.slice l bottom top).
Proof.
  intros Hs. unfold Py.slice.
  now apply newest_first_firstn, newest_first_skipn.
Qed.

Lemma slice_In {A} (x : A) (l : list A) (bottom top : Z) :
  In x (Py.slice l bottom top) -> In x l.
Proof.
  unfold Py.slice. intros Hx.
  apply In_firstn in Hx. eapply In_skipn; eauto.
Qed.

Lemma apply_ordering_sorted (l : list Post) :
  newest_first (apply_ordering Post_Meta_ordering l).
Proof. simpl. apply order_by_pub_date_desc_sorted. Qed.

End Ordering.

(* ===================================================================== *)
(** * The paginator *)
(* ===================================================================== *)

Section PaginatorFacts.

Variable p : Paginator.
Hypothesis per_page_pos : 0 < per_page p.
Hypothesis no_orphans : orphans p = 0.
Hypothesis empty_first : allow_empty_first_page p = true.

Lemma count_nonneg : 0 <= count p.
Proof. unfold count. lia. Qed.

Lemma num_pages_pos : 1 <= num_pages p.
Proof.
  unfold num_pages, Py.ceil_div.
  rewrite empty_first, no_orphans, andb_false_r.
  apply Z.div_le_lower_bound; lia.
Qed.

Lemma validate_int_in_range (n : Z) :
  1 <= n <= num_pages p -> validate_int p n = inr n.
Proof.
  intros [H1 H2]. unfold validate_int.
  destruct (Z.ltb_spec n 1); [lia|].
  destruct (Z.gtb_spec n (num_pages p)); [lia|reflexivity].
Qed.

Lemma validate_number_range (raw : option string) (n : Z) :
  validate_number p raw = inr n -> 1 <= n <= num_pages p.
Proof.
  pose proof num_pages_pos as Hn.
  unfold validate_number.
  destruct (match raw with Some s => Py.int s | None => None end) as [m|];
    [|discriminate].
  unfold validate_int.
  destruct (Z.ltb_spec m 1); [discriminate|].
  destruct (Z.gtb_spec m (num_pages p)).
  - destruct (Z.eqb_spec m 1); simpl; [|discriminate].
    rewrite empty_first. intros [= <-]. lia.
  - intros [= <-]. lia.
Qed.

(** The page number [get_page] settles on is a page of the paginator. *)
Lemma settled_range (raw : option string) :
  1 <= settled p raw <= num_pages p.
Proof.
  pose proof num_pages_pos as Hn. unfold settled.
  destruct (validate_number p raw) as [[|]|n] eqn:E; try lia.
  now apply validate_number_range with raw.
Qed.

(** [get_page] raises nothing: a number out of range or not a number
    is replaced by a page that exists. *)
Lemma get_page_total (raw : option string) :
  get_page p raw =
  inr (mkPage (Py.slice (object_list p)
                 ((settled p raw - 1) * per_page p)
                 (if (settled p raw - 1) * per_page p + per_page p + orphans p
                     >=? count p
                  then count p
                  else (settled p raw - 1) * per_page p + per_page p))
              (settled p raw) p).
Proof.
  unfold get_page.
  unfold page. rewrite validate_int_in_range by apply settled_range.
  reflexivity.
Qed.

End PaginatorFacts.

Lemma get_page_obj_total (post_list : list Post) (request : HttpRequest)
      (w : World) :
  exists pg, get_page_obj post_list POSTS_COUNT request w = (Ok pg, w) /\
             paginator pg = mkPaginator post_list POSTS_COUNT 0 true /\
             exists bottom top,
               page_object_list pg = Py.slice post_list bottom top.
Proof.
  unfold get_page_obj.
  rewrite get_page_total by (simpl; unfold POSTS_COUNT; auto; lia).
  eexists; split; [reflexivity|]. simpl. split; [reflexivity|].
  eexists; eexists; reflexivity.
Qed.

Lemma get_page_obj_sorted (post_list : list Post) (request : HttpRequest)
      (w : World) :
  newest_first post_list ->
  exists pg, get_page_obj post_list POSTS_COUNT request w = (Ok pg, w) /\
             newest_first (page_object_list pg) /\
             (forall x, In x (page_object_list pg) -> In x post_list).
Proof.
  intros Hs.
  destruct (get_page_obj_total post_list request w)
    as (pg & Hrun & _ & bottom & top & Hl).
  exists pg. split; [exact Hrun|]. rewrite Hl. split.
  - now apply newest_first_slice.
  - intros x. apply slice_In.
Qed.

(* ===================================================================== *)
(** * Pagination of twelve posts *)
(* ===================================================================== *)

Ltac run_view :=
  cbv beta iota delta [bind ret gets lift modify raise].

Lemma length_12 {A} (l : list A) :
  List.length l = 12%nat ->
  exists a b c d e f g h i j k m, l = [a; b; c; d; e; f; g; h; i; j; k; m].
Proof.
  intros H.
  do 12 (destruct l as [|? l]; [discriminate H|]).
  destruct l; [|discriminate H].
  repeat eexists.
Qed.

Lemma get_page_obj_12 (post_list : list Post) (request1 request2 : HttpRequest)
      (w : World) :
  List.length post_list = 12%nat ->
  QueryDict_get (req_GET request1) "page" = Some "1" ->
  QueryDict_get (req_GET request2) "page" = Some "2" ->
  exists pg1 pg2,
    get_page_obj post_list POSTS_COUNT request1 w = (Ok pg1, w) /\
    get_page_obj post_list POSTS_COUNT request2 w = (Ok pg2, w) /\
    page_object_list pg1 = firstn 10 post_list /\
    page_object_list pg2 = skipn 10 post_list.
Proof.
  intros Hlen H1 H2.
  destruct (length_12 post_list Hlen)
    as (a & b & c & d & e & f & g & h & i & j & k & m & ->).
  unfold get_page_obj. rewrite H1, H2.
  eexists; eexists.
  split; [reflexivity|]. split; [reflexivity|]. split; reflexivity.
Qed.

(** C2.  Twelve posts at ten a page: the first page has ten posts, the
    second the remaining two (and so not three); [get_page_obj] returns
    them without raising. *)
Theorem get_page_obj_12_posts
        (post_list : list Post) (request1 request2 : HttpRequest) (w : World) :
  List.length post_list = 12%nat ->
  QueryDict_get (req_GET request1) "page" = Some "1" ->
  QueryDict_get (req_GET request2) "page" = Some "2" ->
  exists pg1 pg2,
    get_page_obj post_list POSTS_COUNT request1 w = (Ok pg1, w) /\
    get_page_obj post_list POSTS_COUNT request2 w = (Ok pg2, w) /\
    Page_len pg1 = 10%nat /\
    Page_len pg2 = 2%nat /\
    Page_len pg2 <> 3%nat /\
    page_object_list pg1 = firstn 10 post_list /\
    page_object_list pg2 = skipn 10 post_list.
Proof.
  intros Hlen H1 H2.
  destruct (get_page_obj_12 post_list request1 request2 w Hlen H1 H2)
    as (pg1 & pg2 & E1 & E2 & L1 & L2).
  exists pg1, pg2. unfold Page_len. rewrite L1, L2.
  rewrite length_firstn, length_skipn, Hlen.
  repeat split; try assumption; try reflexivity. discriminate.
Qed.

(** The same on the site feed of a store that holds twelve posts. *)
Lemma index_view_12_posts (request1 request2 : HttpRequest) (w : World) :
  List.length (posts w) = 12%nat ->
  QueryDict_get (req_GET request1) "page" = Some "1" ->
  QueryDict_get (req_GET request2) "page" = Some "2" ->
  exists t pg1 pg2,
    index_view request1 w = (Ok (render "posts/index.html" (ctx_index t pg1)), w) /\
    index_view request2 w = (Ok (render "posts/index.html" (ctx_index t pg2)), w) /\
    Page_len pg1 = 10%nat /\ Page_len pg2 = 2%nat.
Proof.
  intros Hlen H1 H2.
  assert (Hs : List.length (order_by_pub_date_desc (posts w)) = 12%nat).
  { rewrite <- Hlen. symmetry.
    apply Permutation_length, order_by_pub_date_desc_perm. }
  destruct (get_page_obj_12 _ request1 request2 w Hs H1 H2)
    as (pg1 & pg2 & E1 & E2 & L1 & L2).
  eexists; exists pg1, pg2.
  unfold index_view, Post_objects_all_order_by_pub_date_desc. run_view.
  rewrite E1, E2. unfold Page_len. rewrite L1, L2.
  rewrite length_firstn, length_skipn, Hs. repeat split.
Qed.

(** The fixture of [test_paginator] holds thirteen posts, the one of
    [setUpClass] and the twelve it creates; its second page has three. *)
Lemma get_page_obj_13_posts
      (post_list : list Post) (x : Post) (request2 : HttpRequest) (w : World) :
  List.length post_list = 12%nat ->
  QueryDict_get (req_GET request2) "page" = Some "2" ->
  exists pg2,
    get_page_obj (x :: post_list) POSTS_COUNT request2 w = (Ok pg2, w) /\
    Page_len pg2 = 3%nat.
Proof.
  intros Hlen H2.
  destruct (length_12 post_list Hlen)
    as (a & b & c & d & e & f & g & h & i & j & k & m & ->).
  unfold get_page_obj. rewrite H2.
  eexists. split; reflexivity.
Qed.

(* ===================================================================== *)
(** * Access control *)
(* ===================================================================== *)

(** C5.  A logged-in user who is not the author of the post is sent to
    the detail view of the post, whatever the method and the form data,
    and the world, so every field of every post, is as it was. *)
Theorem post_edit_not_author
        (request : HttpRequest) (post_pk : Z) (w : World) (u : User) (p : Post) :
  user request = AuthUser u ->
  Post_objects_get_pk post_pk w = (Ok p, w) ->
  author p <> user_id u ->
  post_edit request post_pk w =
    (Ok (HttpResponseRedirect (ToRoute (posts_post_detail post_pk))), w).
Proof.
  intros Hu Hp Hne.
  unfold post_edit, login_required, post_edit_view. rewrite Hu. simpl.
  unfold bind at 1. rewrite Hp.
  run_view. unfold author_is.
  destruct (Z.eqb_spec (author p) (user_id u)); [contradiction|reflexivity].
Qed.

(** C6.  A request without a logged-in user to one of the views that
    write is answered with a redirect to the login URL whose [next] is
    the requested URL; the world, so the posts and the comments and their
    number, is as it was. *)
Theorem login_required_guest
        (request : HttpRequest) (post_pk : Z) (w : World) :
  user request = AnonymousUser ->
  let login := HttpResponseRedirect
                 (ToLogin LOGIN_URL "next" (get_full_path request)) in
  post_create request w = (Ok login, w) /\
  post_edit request post_pk w = (Ok login, w) /\
  add_comment request post_pk w = (Ok login, w) /\
  location_param (ToLogin LOGIN_URL "next" (get_full_path request)) "next"
    = Some (get_full_path request) /\
  (query_string request = "" -> get_full_path request = path request).
Proof.
  intros Hu login.
  unfold post_create, post_edit, add_comment, login_required.
  rewrite Hu. simpl.
  repeat split; try reflexivity.
  intros Hq. unfold get_full_path. now rewrite Hq.
Qed.

(* ===================================================================== *)
(** * The follow relation *)
(* ===================================================================== *)

Section FollowFacts.

Lemma User_objects_get_username_users (name : string) (w w' : World) (a : User) :
  users w' = users w ->
  User_objects_get_username name w = (Ok a, w) ->
  User_objects_get_username name w' = (Ok a, w').
Proof.
  unfold User_objects_get_username. run_view. intros ->.
  destruct (objects_get _); [|discriminate].
  now intros [= ->].
Qed.

Lemma existsb_false_filter {A} (f : A -> bool) (l : list A) :
  existsb f l = false -> filter f l = [].
Proof.
  induction l as [|x l IH]; simpl; [reflexivity|].
  destruct (f x); simpl; [discriminate|exact IH].
Qed.

Lemma existsb_filter_nonempty {A} (f : A -> bool) (l : list A) :
  existsb f l = match filter f l with [] => false | _ => true end.
Proof.
  induction l as [|x l IH]; simpl; [reflexivity|].
  destruct (f x); simpl; [reflexivity|exact IH].
Qed.

Lemma filter_negb_absent {A} (f : A -> bool) (l : list A) :
  existsb f (filter (fun x => negb (f x)) l) = false.
Proof.
  induction l as [|x l IH]; simpl; [reflexivity|].
  destruct (f x) eqn:E; simpl; [exact IH|].
  now rewrite E.
Qed.

Variables (request : HttpRequest) (username : string) (u a : User).
Hypothesis logged_in : user request = AuthUser u.

(** The row [Follow_save] writes. *)
Let new_follow (w : World) : Follow :=
  mkFollow (next_pk (map follow_id (follows w))) (user_id u) (user_id a).

Lemma profile_follow_conflict (w : World) :
  User_objects_get_username username w = (Ok a, w) ->
  follows_pair w u a = true \/ user_id u = user_id a ->
  profile_follow request username w = (Raise IntegrityError, w).
Proof.
  intros Ha Hc.
  unfold profile_follow, login_required, profile_follow_view.
  rewrite logged_in. simpl. unfold bind at 1. rewrite Ha.
  unfold Follow_save. run_view. fold (follows_pair w u a).
  destruct Hc as [-> | ->]; [reflexivity|].
  now rewrite Z.eqb_refl, orb_true_r.
Qed.

Lemma profile_follow_creates (w : World) :
  User_objects_get_username username w = (Ok a, w) ->
  follows_pair w u a = false ->
  user_id u <> user_id a ->
  profile_follow request username w =
    (Ok (HttpResponseRedirect (ToRoute (posts_profile username))),
     set_follows (fun fs => fs ++ [new_follow w])%list w).
Proof.
  intros Ha Hn Hd.
  unfold profile_follow, login_required, profile_follow_view.
  rewrite logged_in. simpl. unfold bind at 1. rewrite Ha.
  unfold Follow_save. run_view. fold (follows_pair w u a). rewrite Hn.
  destruct (Z.eqb_spec (user_id u) (user_id a)); [contradiction|].
  reflexivity.
Qed.

Lemma profile_unfollow_deletes (w : World) :
  User_objects_get_username username w = (Ok a, w) ->
  profile_unfollow request username w =
    (Ok (HttpResponseRedirect (ToRoute (posts_profile username))),
     set_follows (filter (fun f => negb (follow_matches u a f))) w).
Proof.
  intros Ha.
  unfold profile_unfollow, login_required, profile_unfollow_view.
  rewrite logged_in. simpl. unfold bind at 1. rewrite Ha.
  reflexivity.
Qed.

Lemma profile_following (w : World) :
  User_objects_get_username username w = (Ok a, w) ->
  exists post_list page_obj,
    profile request username w =
      (Ok (render "posts/profile.html"
             (ctx_profile a post_list page_obj (follows_pair w u a))), w) /\
    newest_first (page_object_list page_obj).
Proof.
  intros Ha. unfold profile. unfold bind at 1. rewrite Ha.
  unfold Post_objects_filter_author, Post_queryset. run_view.
  match goal with
  | |- context [get_page_obj ?l POSTS_COUNT request w] =>
      destruct (@get_page_obj_sorted l request w) as (pg & -> & Hs & _);
      [apply apply_ordering_sorted|]
  end.
  unfold Follow_objects_filter. rewrite logged_in. run_view. simpl.
  eexists; exists pg. split; [|exact Hs].
  unfold follows_pair. rewrite existsb_filter_nonempty.
  now destruct (filter (follow_matches u a) (follows w)).
Qed.

End FollowFacts.

(** C1.  Following an author one already follows, or oneself, raises the
    store's [IntegrityError] and writes nothing; otherwise exactly one row
    is added to the Follow table, for the pair. *)
Theorem profile_follow_conflict_or_create
        (request : HttpRequest) (username : string) (u a : User) (w : World) :
  user request = AuthUser u ->
  User_objects_get_username username w = (Ok a, w) ->
  (follows_pair w u a = true \/ user_id u = user_id a ->
   profile_follow request username w = (Raise IntegrityError, w)) /\
  (follows_pair w u a = false -> user_id u <> user_id a ->
   exists w' f,
     profile_follow request username w =
       (Ok (HttpResponseRedirect (ToRoute (posts_profile username))), w') /\
     follows w' = (follows w ++ [f])%list /\
     follow_user f = user_id u /\ follow_author f = user_id a /\
     count_pair w' u a = 1%nat /\
     posts w' = posts w /\ comments w' = comments w /\ users w' = users w).
Proof.
  intros Hu Ha. split.
  - now apply profile_follow_conflict.
  - intros Hn Hd.
    eexists; eexists. split; [apply profile_follow_creates; eassumption|].
    simpl. repeat split.
    unfold count_pair. simpl. rewrite filter_app.
    unfold follows_pair in Hn. rewrite (existsb_false_filter _ _ Hn).
    simpl. unfold follow_matches. simpl. now rewrite !Z.eqb_refl.
Qed.

(** C7.  Unfollowing leaves no row for the pair and raises nothing,
    whether or not a row was there; so it does after a follow; and the
    profile page of the author shows [following] exactly when a row for
    the pair exists. *)
Theorem profile_unfollow_idempotent
        (request : HttpRequest) (username : string) (u a : User) (w : World) :
  user request = AuthUser u ->
  User_objects_get_username username w = (Ok a, w) ->
  let done := Ok (HttpResponseRedirect (ToRoute (posts_profile username))) in
  (exists w', profile_unfollow request username w = (done, w') /\
              follows_pair w' u a = false) /\
  (forall r1 w1, profile_follow request username w = (r1, w1) ->
     (user_id u <> user_id a -> follows_pair w1 u a = true) /\
     exists w2, profile_unfollow request username w1 = (done, w2) /\
                follows_pair w2 u a = false) /\
  (forall w0, User_objects_get_username username w0 = (Ok a, w0) ->
     exists r, profile request username w0 = (r, w0) /\
               following_flag r = Some (follows_pair w0 u a)).
Proof.
  intros Hu Ha done.
  assert (Hun : forall w0, User_objects_get_username username w0 = (Ok a, w0) ->
            exists w', profile_unfollow request username w0 = (done, w') /\
                       follows_pair w' u a = false).
  { intros w0 H0. eexists. split; [apply profile_unfollow_deletes; eassumption|].
    unfold follows_pair. simpl. apply filter_negb_absent. }
  split; [now apply Hun|]. split.
  - intros r1 w1 Hf.
    destruct (follows_pair w u a) eqn:Hp.
    + rewrite (profile_follow_conflict request username u a Hu w Ha (or_introl Hp)) in Hf.
      injection Hf as <- <-. split; [now intros _|]. now apply Hun.
    + destruct (Z.eq_dec (user_id u) (user_id a)) as [He|Hd].
      * rewrite (profile_follow_conflict request username u a Hu w Ha (or_intror He)) in Hf.
        injection Hf as <- <-. split; [contradiction|]. now apply Hun.
      * rewrite (profile_follow_creates request username u a Hu w Ha Hp Hd) in Hf.
        injection Hf as <- <-. split.
        -- intros _. unfold follows_pair. simpl. rewrite existsb_app. simpl.
           unfold follow_matches at 2. simpl.
           now rewrite !Z.eqb_refl, orb_true_r.
        -- apply Hun.
           apply User_objects_get_username_users with w; [reflexivity|exact Ha].
  - intros w0 H0.
    destruct (profile_following request username u a Hu w0 H0) as (pl & pg & -> & _).
    eexists. split; reflexivity.
Qed.

(* ===================================================================== *)
(** * Objects that do not exist *)
(* ===================================================================== *)

Lemma filter_none {A} (f : A -> bool) (l : list A) :
  (forall x, In x l -> f x = false) -> filter f l = [].
Proof.
  induction l as [|x l IH]; simpl; intros H; [reflexivity|].
  rewrite (H x (or_introl eq_refl)). apply IH. intros y Hy. apply H. now right.
Qed.

(** An unknown slug is answered with the 404 page. *)
Lemma group_posts_unknown_slug (request : HttpRequest) (s : string) (w : World) :
  (forall g, In g (groups w) -> slug g <> s) ->
  get_response (group_posts request s) w = (NotFound404, w).
Proof.
  intros H. unfold get_response, group_posts, get_Group_or_404_slug. run_view.
  rewrite filter_none; [reflexivity|].
  intros g Hg. apply String.eqb_neq. now apply H.
Qed.

Lemma Post_objects_get_pk_unknown (pk : Z) (w : World) :
  (forall p, In p (posts w) -> post_id p <> pk) ->
  Post_objects_get_pk pk w = (Raise DoesNotExist, w).
Proof.
  intros H. unfold Post_objects_get_pk. run_view.
  rewrite filter_none; [reflexivity|].
  intros p Hp. apply Z.eqb_neq. now apply H.
Qed.

Lemma User_objects_get_username_unknown (name : string) (w : World) :
  (forall u, In u (users w) -> username u <> name) ->
  User_objects_get_username name w = (Raise DoesNotExist, w).
Proof.
  intros H. unfold User_objects_get_username. run_view.
  rewrite filter_none; [reflexivity|].
  intros u Hu. apply String.eqb_neq. now apply H.
Qed.

(** An unknown post id is an uncaught [DoesNotExist] in the three views
    that look the post up, and so is an unknown username in the profile
    view. *)
Lemma unknown_post_server_error (request : HttpRequest) (pk : Z) (w : World) :
  (forall p, In p (posts w) -> post_id p <> pk) ->
  get_response (post_detail request pk) w = (ServerError500 DoesNotExist, w) /\
  (is_authenticated (user request) = true ->
   get_response (post_edit request pk) w = (ServerError500 DoesNotExist, w) /\
   get_response (add_comment request pk) w = (ServerError500 DoesNotExist, w)).
Proof.
  intros H. apply Post_objects_get_pk_unknown in H.
  unfold get_response, post_detail, post_edit, add_comment, login_required,
    post_edit_view, add_comment_view.
  split.
  - unfold bind at 1. now rewrite H.
  - intros ->. split; unfold bind at 1; now rewrite H.
Qed.

Lemma unknown_user_server_error (request : HttpRequest) (name : string) (w : World) :
  (forall u, In u (users w) -> username u <> name) ->
  get_response (profile request name) w = (ServerError500 DoesNotExist, w).
Proof.
  intros H. apply User_objects_get_username_unknown in H.
  unfold get_response, profile. unfold bind at 1. now rewrite H.
Qed.

(** C3.  On the fixture of the tests: the unknown slug is answered with
    the 404 page, the unknown post id and the unknown username with a
    server error, the [DoesNotExist] that [Manager.get] raised. *)
Theorem unknown_objects_on_fixture :
  get_response (group_posts (client_get AnonymousUser "/group/nosuch/" []) "nosuch")
    fixture = (NotFound404, fixture) /\
  get_response (post_detail (client_get AnonymousUser "/posts/99/" []) 99)
    fixture = (ServerError500 DoesNotExist, fixture) /\
  get_response (post_edit (client_get (AuthUser auth) "/posts/99/edit/" []) 99)
    fixture = (ServerError500 DoesNotExist, fixture) /\
  get_response (add_comment (client_post (AuthUser auth) "/posts/99/comment/"
                                         [("text", "hello")]) 99)
    fixture = (ServerError500 DoesNotExist, fixture) /\
  get_response (profile (client_get (AuthUser auth) "/profile/nobody/" []) "nobody")
    fixture = (ServerError500 DoesNotExist, fixture).
Proof. repeat split. Qed.

(* ===================================================================== *)
(** * The profile of an author, seen by a guest *)
(* ===================================================================== *)

(** The filter on [user=request.user] raises for a guest, after the
    author and the page of posts have been found. *)
Lemma profile_guest_raises (request : HttpRequest) (name : string) (a : User)
      (w : World) :
  user request = AnonymousUser ->
  User_objects_get_username name w = (Ok a, w) ->
  get_response (profile request name) w = (ServerError500 TypeError, w).
Proof.
  intros Hu Ha. unfold get_response, profile. unfold bind at 1. rewrite Ha.
  unfold Post_objects_filter_author, Post_queryset. run_view.
  match goal with
  | |- context [get_page_obj ?l POSTS_COUNT request w] =>
      destruct (get_page_obj_total l request w) as (pg & -> & _)
  end.
  unfold Follow_objects_filter. rewrite Hu. reflexivity.
Qed.

(** C4.  On the fixture of the tests: the profile of [auth], asked for by
    a client that is not logged in, is a server error. *)
Theorem profile_guest_on_fixture :
  get_response (profile (client_get AnonymousUser "/profile/auth/" []) "auth")
    fixture = (ServerError500 TypeError, fixture).
Proof. reflexivity. Qed.

(* ===================================================================== *)
(** * The feeds *)
(* ===================================================================== *)

Lemma index_view_page (request : HttpRequest) (w : World) :
  exists t pg,
    index_view request w = (Ok (render "posts/index.html" (ctx_index t pg)), w) /\
    newest_first (page_object_list pg) /\
    (forall x, In x (page_object_list pg) -> In x (posts w)).
Proof.
  unfold index_view, Post_objects_all_order_by_pub_date_desc. run_view.
  destruct (@get_page_obj_sorted (order_by_pub_date_desc (posts w)) request w)
    as (pg & -> & Hs & Hin); [apply order_by_pub_date_desc_sorted|].
  eexists; exists pg. split; [reflexivity|]. split; [exact Hs|].
  intros x Hx. now apply order_by_pub_date_desc_In, Hin.
Qed.

Lemma cache_get_In (c : list (cache_key * cache_entry)) (k : cache_key)
      (now : Z) (r : HttpResponse) :
  cache_get c k now = Some r -> exists e, In e c /\ cached (snd e) = r.
Proof.
  induction c as [|[[p u] e] c IH]; simpl; [discriminate|].
  destruct (String.eqb p (fst k) && String.eqb u (snd k)).
  - destruct (now <? expires e); [|discriminate].
    intros [= <-]. exists (p, u, e). auto.
  - intros H. destruct (IH H) as (e' & Hin & He). exists e'. auto.
Qed.

(** The cached site feed: the response is a page of the feed, newest
    first, and so is whatever the cache holds afterwards. *)
Lemma index_newest_first (request : HttpRequest) (w : World) :
  cache_of_index_pages w ->
  exists r w', index request w = (Ok r, w') /\
               index_page r /\ cache_of_index_pages w' /\
               posts w' = posts w.
Proof.
  intros Hc. unfold index, cache_page.
  destruct (index_view_page request w) as (t & pg & Hv & Hs & _).
  assert (Hp : index_page (render "posts/index.html" (ctx_index t pg)))
    by (exists t, pg; auto).
  destruct (method request).
  - run_view.
    destruct (cache_get (cache w) _ (clock w)) as [r|] eqn:Hg.
    + exists r, w. split; [reflexivity|]. split; [|auto].
      apply cache_get_In in Hg as (e & Hin & <-).
      unfold cache_of_index_pages in Hc. rewrite Forall_forall in Hc.
      now apply Hc.
    + rewrite Hv. simpl. unfold cache_set. run_view.
      eexists; eexists. split; [reflexivity|]. split; [exact Hp|].
      split; [|reflexivity].
      unfold cache_of_index_pages. simpl. constructor; assumption.
  - rewrite Hv. exists (render "posts/index.html" (ctx_index t pg)), w. auto.
Qed.

Lemma group_posts_newest_first (request : HttpRequest) (s : string) (g : Group)
      (w : World) :
  get_Group_or_404_slug s w = (Ok g, w) ->
  exists t pg,
    group_posts request s w =
      (Ok (render "posts/group_list.html" (ctx_group_list t g pg)), w) /\
    newest_first (page_object_list pg).
Proof.
  intros Hg. unfold group_posts. unfold bind at 1. rewrite Hg.
  unfold group_posts_all, Post_queryset. run_view.
  match goal with
  | |- context [get_page_obj ?l POSTS_COUNT request w] =>
      destruct (@get_page_obj_sorted l request w) as (pg & -> & Hs & _);
      [apply apply_ordering_sorted|]
  end.
  eexists; exists pg. split; [reflexivity|exact Hs].
Qed.

Lemma follow_index_newest_first (request : HttpRequest) (u : User) (w : World) :
  user request = AuthUser u ->
  exists t pg,
    follow_index request w =
      (Ok (render "posts/follow.html" (ctx_follow t pg)), w) /\
    newest_first (page_object_list pg).
Proof.
  intros Hu. unfold follow_index, login_required, follow_index_view.
  rewrite Hu. simpl.
  unfold Post_objects_filter_author__following__user. run_view. simpl User_of.
  cbv beta iota.
  match goal with
  | |- context [get_page_obj ?l POSTS_COUNT request w] =>
      destruct (@get_page_obj_sorted l request w) as (pg & -> & Hs & _);
      [apply apply_ordering_sorted|]
  end.
  eexists; exists pg. split; [reflexivity|exact Hs].
Qed.

(* ===================================================================== *)
(** * Comments *)
(* ===================================================================== *)

Lemma CommentForm_empty_text_invalid (d : option QueryDict) :
  field_value d "text" = "" -> CommentForm_is_valid (mkCommentForm d) = false.
Proof.
  intros H. unfold CommentForm_is_valid, CommentForm_errors. simpl.
  rewrite H. apply andb_false_r.
Qed.

(** C9, as amended.  A comment without text creates no row and is no
    server error; the answer is the redirect to the detail view of the
    post, as for a comment that was saved, and neither the redirect nor
    the detail page, whose form is a fresh unbound one, shows a
    validation error. *)
Theorem add_comment_empty_text
        (request : HttpRequest) (post_pk : Z) (u : User) (p : Post) (w : World) :
  user request = AuthUser u ->
  Post_objects_get_pk post_pk w = (Ok p, w) ->
  field_value (or_None (req_POST request)) "text" = "" ->
  let back := HttpResponseRedirect (ToRoute (posts_post_detail post_pk)) in
  add_comment request post_pk w = (Ok back, w) /\
  get_response (add_comment request post_pk) w = (Response back, w) /\
  shows_form_errors (groups w) back = false /\
  forall request', exists cs,
    let detail := render "posts/post_detail.html"
                         (ctx_post_detail p cs (mkCommentForm None)) in
    post_detail request' post_pk w = (Ok detail, w) /\
    shows_form_errors (groups w) detail = false.
Proof.
  intros Hu Hp Ht back.
  assert (E : add_comment request post_pk w = (Ok back, w)).
  { unfold add_comment, login_required, add_comment_view. rewrite Hu. simpl.
    unfold bind at 1. rewrite Hp.
    rewrite (CommentForm_empty_text_invalid _ Ht). reflexivity. }
  split; [exact E|]. split; [unfold get_response; now rewrite E|].
  split; [reflexivity|].
  intros request'. eexists. unfold post_detail. unfold bind at 1. rewrite Hp.
  split; reflexivity.
Qed.

(** C9, as stated, fails on the fixture of the tests: [auth] posts a
    comment with empty text on the post 1, and no response that shows the
    error on a form comes back. *)
Lemma add_comment_empty_text_no_feedback :
  ~ exists r w',
      add_comment empty_comment 1 fixture = (Ok r, w') /\
      comments w' = comments fixture /\
      shows_form_errors (groups fixture) r = true.
Proof.
  intros (r & w' & H & _ & Hs).
  vm_compute in H. injection H as <- <-. discriminate Hs.
Qed.

(* ===================================================================== *)
(** * The cache of the site feed *)
(* ===================================================================== *)


(** A request the cache has no live entry for runs the view. *)
Lemma index_miss (request : HttpRequest) (w : World) :
  method request = GET ->
  cache_get (cache w) ("index_page", get_full_path request) (clock w) = None ->
  exists t pg,
    let r := render "posts/index.html" (ctx_index t pg) in
    index_view request w = (Ok r, w) /\
    index request w =
      (Ok r, set_cache (fun c => (("index_page", get_full_path request),
                                  mkEntry (clock w + 20) r) :: c) w) /\
    (forall x, In x (page_object_list pg) -> In x (posts w)).
Proof.
  intros Hm Hg.
  destruct (index_view_page request w) as (t & pg & Hv & _ & Hin).
  exists t, pg. split; [exact Hv|]. split; [|exact Hin].
  unfold index, cache_page. rewrite Hm. run_view. rewrite Hg, Hv. reflexivity.
Qed.


(* ===================================================================== *)
(** * The theorems at the fixture of the tests *)
(* ===================================================================== *)

Lemma profile_follow_conflict_or_create_witness :
  user follow_request = AuthUser auth /\
  User_objects_get_username "followed" fixture = (Ok followed_user, fixture) /\
  follows_pair fixture auth followed_user = false /\
  user_id auth <> user_id followed_user /\
  exists w' f,
    profile_follow follow_request "followed" fixture =
      (Ok (HttpResponseRedirect (ToRoute (posts_profile "followed"))), w') /\
    follows w' = (follows fixture ++ [f])%list /\
    follow_user f = user_id auth /\ follow_author f = user_id followed_user /\
    count_pair w' auth followed_user = 1%nat /\
    posts w' = posts fixture /\ comments w' = comments fixture /\
    users w' = users fixture.
Proof.
  assert (H1 : user follow_request = AuthUser auth) by reflexivity.
  assert (H2 : User_objects_get_username "followed" fixture
               = (Ok followed_user, fixture)) by reflexivity.
  assert (H3 : follows_pair fixture auth followed_user = false) by reflexivity.
  assert (H4 : user_id auth <> user_id followed_user) by discriminate.
  repeat (split; [assumption|]).
  exact (proj2 (profile_follow_conflict_or_create
                  follow_request "followed" auth followed_user fixture H1 H2) H3 H4).
Defined.

Lemma get_page_obj_12_posts_witness :
  List.length twelve_posts = 12%nat /\
  QueryDict_get (req_GET page1_request) "page" = Some "1" /\
  QueryDict_get (req_GET page2_request) "page" = Some "2" /\
  exists pg1 pg2,
    get_page_obj twelve_posts POSTS_COUNT page1_request fixture = (Ok pg1, fixture) /\
    get_page_obj twelve_posts POSTS_COUNT page2_request fixture = (Ok pg2, fixture) /\
    Page_len pg1 = 10%nat /\
    Page_len pg2 = 2%nat /\
    Page_len pg2 <> 3%nat /\
    page_object_list pg1 = firstn 10 twelve_posts /\
    page_object_list pg2 = skipn 10 twelve_posts.
Proof.
  assert (H0 : List.length twelve_posts = 12%nat) by reflexivity.
  assert (H1 : QueryDict_get (req_GET page1_request) "page" = Some "1") by reflexivity.
  assert (H2 : QueryDict_get (req_GET page2_request) "page" = Some "2") by reflexivity.
  repeat (split; [assumption|]).
  exact (get_page_obj_12_posts twelve_posts page1_request page2_request fixture H0 H1 H2).
Defined.

Lemma post_edit_not_author_witness :
  user wrong_client_edit = AuthUser followed_user /\
  Post_objects_get_pk 1 fixture = (Ok test_post, fixture) /\
  author test_post <> user_id followed_user /\
  post_edit wrong_client_edit 1 fixture =
    (Ok (HttpResponseRedirect (ToRoute (posts_post_detail 1))), fixture).
Proof.
  assert (H1 : user wrong_client_edit = AuthUser followed_user) by reflexivity.
  assert (H2 : Post_objects_get_pk 1 fixture = (Ok test_post, fixture))
    by reflexivity.
  assert (H3 : author test_post <> user_id followed_user) by discriminate.
  repeat (split; [assumption|]).
  exact (post_edit_not_author wrong_client_edit 1 fixture followed_user test_post H1 H2 H3).
Defined.

Lemma login_required_guest_witness :
  user guest_create = AnonymousUser /\
  post_create guest_create fixture =
    (Ok (HttpResponseRedirect (ToLogin "/auth/login/" "next" "/create/")), fixture).
Proof.
  assert (H1 : user guest_create = AnonymousUser) by reflexivity.
  split; [assumption|].
  exact (proj1 (login_required_guest guest_create 1 fixture H1)).
Defined.

Lemma profile_unfollow_idempotent_witness :
  user unfollow_request = AuthUser auth /\
  User_objects_get_username "followed" fixture = (Ok followed_user, fixture) /\
  exists w',
    profile_unfollow unfollow_request "followed" fixture =
      (Ok (HttpResponseRedirect (ToRoute (posts_profile "followed"))), w') /\
    follows_pair w' auth followed_user = false.
Proof.
  assert (H1 : user unfollow_request = AuthUser auth) by reflexivity.
  assert (H2 : User_objects_get_username "followed" fixture
               = (Ok followed_user, fixture)) by reflexivity.
  repeat (split; [assumption|]).
  exact (proj1 (profile_unfollow_idempotent
                  unfollow_request "followed" auth followed_user fixture H1 H2)).
Defined.

Lemma add_comment_empty_text_witness :
  user empty_comment = AuthUser auth /\
  Post_objects_get_pk 1 fixture = (Ok test_post, fixture) /\
  field_value (or_None (req_POST empty_comment)) "text" = "" /\
  add_comment empty_comment 1 fixture =
    (Ok (HttpResponseRedirect (ToRoute (posts_post_detail 1))), fixture).
Proof.
  assert (H1 : user empty_comment = AuthUser auth) by reflexivity.
  assert (H2 : Post_objects_get_pk 1 fixture = (Ok test_post, fixture))
    by reflexivity.
  assert (H3 : field_value (or_None (req_POST empty_comment)) "text" = "")
    by reflexivity.
  repeat (split; [assumption|]).
  exact (proj1 (add_comment_empty_text empty_comment 1 auth test_post fixture H1 H2 H3)).
Defined.

(** [test_cache_index], step by step: the post of the test is on the page
    that is cached, still on the page served after the post was deleted,
    and no longer on the page served after [cache.clear()]. *)
Example test_cache_index :
  let request := client_get (AuthUser auth) "/" [] in
  let '(r1, w1) := index request cache_fixture in
  let w2 := Post_delete 2 w1 in
  let '(r2, w3) := index request w2 in
  let '(r3, _) := index request (cache_clear w3) in
  match r1, r2, r3 with
  | Ok a, Ok b, Ok c =>
      map post_id (response_posts a) = [2; 1] /\
      map post_id (response_posts b) = [2; 1] /\
      map post_id (response_posts c) = [1]
  | _, _, _ => False
  end.
Proof. vm_compute. repeat split. Qed.

(* ===================================================================== *)
(** * Further properties: pagination *)
(* ===================================================================== *)

Lemma slice_tenth (l : list Post) (b : Z) :
  0 <= b ->
  Py.slice l b (if b + 10 + 0 >=? Z.of_nat (List.length l)
                then Z.of_nat (List.length l) else b + 10)
  = firstn 10 (skipn (Z.to_nat b) l).
Proof.
  intros Hb. unfold Py.slice.
  destruct (Z.geb_spec (b + 10 + 0) (Z.of_nat (List.length l))) as [Hge|Hlt].
  - assert (Hlen : (List.length (skipn (Z.to_nat b) l) <= 10)%nat)
      by (rewrite length_skipn; lia).
    rewrite (firstn_all2 (n := 10)) by exact Hlen.
    apply firstn_all2. rewrite length_skipn. lia.
  - replace (Z.to_nat (b + 10 - b)) with 10%nat by lia. reflexivity.
Qed.

Lemma get_page_obj_tenth (post_list : list Post) (request : HttpRequest)
      (w : World) :
  let p := feed_paginator post_list in
  let k := settled p (QueryDict_get (req_GET request) "page") in
  get_page_obj post_list POSTS_COUNT request w
    = (Ok (mkPage (tenth post_list k) k p), w) /\
  1 <= k <= num_pages p.
Proof.
  intros p k.
  assert (Hk : 1 <= k <= num_pages p).
  { apply settled_range; unfold p, feed_paginator, POSTS_COUNT; simpl;
      auto; lia. }
  split; [|exact Hk].
  unfold get_page_obj. fold (feed_paginator post_list). fold p.
  rewrite get_page_total
    by (unfold p, feed_paginator, POSTS_COUNT; simpl; auto; lia).
  fold k. unfold tenth. simpl per_page. simpl orphans. simpl object_list.
  unfold count. simpl object_list. unfold POSTS_COUNT.
  replace ((k - 1) * 10) with (10 * (k - 1)) by lia.
  rewrite slice_tenth by lia. reflexivity.
Qed.

Lemma num_pages_feed (post_list : list Post) :
  num_pages (feed_paginator post_list)
  = (Z.max 1 (Z.of_nat (List.length post_list)) + 9) / 10.
Proof.
  unfold num_pages, feed_paginator, count, Py.ceil_div, POSTS_COUNT. simpl.
  rewrite andb_false_r. f_equal. lia.
Qed.

(** X1.  [get_page_obj] raises for no list and no request: it returns a
    page of at most ten posts whose number is a page of the paginator,
    and the page is empty only when the list is. *)
Theorem get_page_obj_never_raises
        (post_list : list Post) (request : HttpRequest) (w : World) :
  exists pg,
    get_page_obj post_list POSTS_COUNT request w = (Ok pg, w) /\
    (Page_len pg <= 10)%nat /\
    1 <= number pg <= num_pages (feed_paginator post_list) /\
    (post_list <> [] -> page_object_list pg <> []).
Proof.
  destruct (get_page_obj_tenth post_list request w) as [E Hk].
  cbv zeta in E, Hk.
  eexists. split; [exact E|]. cbn [number page_object_list].
  split; [|split; [exact Hk|]].
  - unfold Page_len, tenth. cbn [page_object_list]. rewrite length_firstn. lia.
  - intros Hne. unfold tenth.
    set (k := settled _ _) in *.
    rewrite num_pages_feed in Hk.
    assert (Hlen : (0 < List.length post_list)%nat)
      by (destruct post_list; [contradiction|simpl; lia]).
    assert (Hb : (Z.to_nat (10 * (k - 1)) < List.length post_list)%nat).
    { assert (10 * ((Z.max 1 (Z.of_nat (List.length post_list)) + 9) / 10)
              <= Z.max 1 (Z.of_nat (List.length post_list)) + 9)
        by (apply Z.mul_div_le; lia).
      lia. }
    intros Hnil.
    apply (f_equal (@List.length Post)) in Hnil.
    rewrite length_firstn, length_skipn in Hnil.
    change (List.length (@nil Post)) with 0%nat in Hnil. lia.
Qed.

Lemma settled_no_page (p : Paginator) (request : HttpRequest) :
  asks_no_page request ->
  settled p (QueryDict_get (req_GET request) "page") = 1.
Proof.
  unfold asks_no_page, settled, validate_number.
  destruct (QueryDict_get (req_GET request) "page") as [s|];
    [intros (_ & _ & ->)|]; reflexivity.
Qed.

Lemma settled_asks_page (post_list : list Post) (request : HttpRequest) (n : Z) :
  asks_page request n ->
  let p := feed_paginator post_list in
  settled p (QueryDict_get (req_GET request) "page")
  = if (1 <=? n) && (n <=? num_pages p) then n else num_pages p.
Proof.
  intros (s & -> & _ & Hs) p. unfold settled, validate_number. rewrite Hs.
  unfold validate_int.
  assert (Hn : 1 <= num_pages p).
  { unfold p. rewrite num_pages_feed. apply Z.div_le_lower_bound; lia. }
  destruct (Z.ltb_spec n 1).
  - rewrite (proj2 (Z.leb_gt 1 n)) by lia. reflexivity.
  - rewrite (proj2 (Z.leb_le 1 n)) by lia. cbn [andb].
    destruct (Z.gtb_spec n (num_pages p)).
    + rewrite (proj2 (Z.leb_gt n (num_pages p))) by lia.
      destruct (Z.eqb_spec n 1); [lia|reflexivity].
    + rewrite (proj2 (Z.leb_le n (num_pages p))) by lia. reflexivity.
Qed.

Lemma get_page_obj_first
      (post_list : list Post) (request : HttpRequest) (w : World) :
  asks_no_page request ->
  get_page_obj post_list POSTS_COUNT request w
    = (Ok (mkPage (firstn 10 post_list) 1 (feed_paginator post_list)), w).
Proof.
  intros H.
  destruct (get_page_obj_tenth post_list request w) as [E _]. cbv zeta in E.
  rewrite (settled_no_page _ request H) in E. exact E.
Qed.

(** X2.  Without a [page] parameter, or with an ASCII one that [int()]
    refuses, [get_page_obj] returns the first page: the first ten posts
    of the list. *)
Theorem get_page_obj_no_page
        (post_list : list Post) (request : HttpRequest) (w : World) :
  asks_no_page request ->
  get_page_obj post_list POSTS_COUNT request w
    = (Ok (mkPage (firstn 10 post_list) 1 (feed_paginator post_list)), w).
Proof. apply get_page_obj_first. Qed.

(** X3.  With an ASCII [page] parameter that [int()] reads as a page [n]
    of the paginator, [get_page_obj] returns page [n]: the posts at the positions [10(n-1)] to [10n-1] of
    the list. *)
Theorem get_page_obj_in_range
        (post_list : list Post) (request : HttpRequest) (n : Z) (w : World) :
  asks_page request n ->
  1 <= n <= num_pages (feed_paginator post_list) ->
  get_page_obj post_list POSTS_COUNT request w
    = (Ok (mkPage (firstn 10 (skipn (Z.to_nat (10 * (n - 1))) post_list)) n
                  (feed_paginator post_list)), w).
Proof.
  intros H Hn.
  destruct (get_page_obj_tenth post_list request w) as [E _]. cbv zeta in E.
  rewrite (settled_asks_page post_list request n H) in E.
  destruct (Z.leb_spec 1 n), (Z.leb_spec n (num_pages (feed_paginator post_list)));
    try lia.
  exact E.
Qed.

(** X4.  With an ASCII [page] parameter that [int()] reads as an [n]
    below 1 or beyond the last page, [get_page_obj] returns the last page, not an error and not an empty
    page. *)
Theorem get_page_obj_out_of_range
        (post_list : list Post) (request : HttpRequest) (n : Z) (w : World) :
  asks_page request n ->
  n < 1 \/ num_pages (feed_paginator post_list) < n ->
  let last := num_pages (feed_paginator post_list) in
  get_page_obj post_list POSTS_COUNT request w
    = (Ok (mkPage (firstn 10 (skipn (Z.to_nat (10 * (last - 1))) post_list))
                  last (feed_paginator post_list)), w).
Proof.
  intros H Hn last.
  destruct (get_page_obj_tenth post_list request w) as [E _]. cbv zeta in E.
  rewrite (settled_asks_page post_list request n H) in E.
  destruct (Z.leb_spec 1 n), (Z.leb_spec n (num_pages (feed_paginator post_list)));
    try lia; exact E.
Qed.

Lemma tenths_cover (n : nat) (l : list Post) :
  (List.length l <= 10 * n)%nat ->
  List.concat (map (fun i => firstn 10 (skipn (10 * i) l)) (seq 0 n)) = l.
Proof.
  revert l. induction n as [|n IH]; intros l Hl.
  - destruct l; [reflexivity|simpl in Hl; lia].
  - cbn [seq map List.concat]. rewrite <- seq_shift, map_map.
    rewrite (map_ext _ (fun i => firstn 10 (skipn (10 * i) (skipn 10 l)))).
    + rewrite IH by (rewrite length_skipn; lia).
      change (10 * 0)%nat with 0%nat. rewrite skipn_0. apply firstn_skipn.
    + intros i. rewrite skipn_skipn. do 2 f_equal. lia.
Qed.

Lemma pages_concat
      (post_list : list Post) (page_request : Z -> HttpRequest) (w : World) :
  (forall k, 1 <= k <= num_pages (feed_paginator post_list) ->
             asks_page (page_request k) k) ->
  List.concat (map (fun i => page_of (get_page_obj post_list POSTS_COUNT
                                   (page_request (Z.of_nat i + 1)) w))
              (seq 0 (Z.to_nat (num_pages (feed_paginator post_list)))))
  = post_list.
Proof.
  intros Hreq.
  rewrite (map_ext_in _ (fun i => firstn 10 (skipn (10 * i) post_list))).
  - apply tenths_cover. rewrite num_pages_feed.
    assert (Z.max 1 (Z.of_nat (List.length post_list)) + 9
            < 10 * ((Z.max 1 (Z.of_nat (List.length post_list)) + 9) / 10) + 10).
    { pose proof (Z.mul_succ_div_gt
                    (Z.max 1 (Z.of_nat (List.length post_list)) + 9) 10). lia. }
    lia.
  - intros i Hi. apply in_seq in Hi.
    assert (Hk : 1 <= Z.of_nat i + 1 <= num_pages (feed_paginator post_list))
      by lia.
    destruct (get_page_obj_tenth post_list (page_request (Z.of_nat i + 1)) w)
      as [E _]. cbv zeta in E.
    rewrite (settled_asks_page post_list _ _ (Hreq _ Hk)) in E.
    destruct (Z.leb_spec 1 (Z.of_nat i + 1)),
             (Z.leb_spec (Z.of_nat i + 1) (num_pages (feed_paginator post_list)));
      try lia.
    simpl in E. rewrite E. unfold page_of, tenth. cbn [fst page_object_list].
    do 2 f_equal. lia.
Qed.

(** X5.  The pages of a list, from the first to the last, one after the
    other, are the list: every post is on exactly one page, in the order
    of the list. *)
Theorem pages_cover_list
        (post_list : list Post) (page_request : Z -> HttpRequest) (w : World) :
  (forall k, 1 <= k <= num_pages (feed_paginator post_list) ->
             asks_page (page_request k) k) ->
  List.concat (map (fun i => page_of (get_page_obj post_list POSTS_COUNT
                                   (page_request (Z.of_nat i + 1)) w))
              (seq 0 (Z.to_nat (num_pages (feed_paginator post_list)))))
  = post_list.
Proof. apply pages_concat. Qed.

(* ===================================================================== *)
(** * Further properties: what a view leaves as it was *)
(* ===================================================================== *)

Section Frames.

Variable R : World -> World -> Prop.
Hypothesis R_refl : forall w, R w w.
Hypothesis R_trans : forall w1 w2 w3, R w1 w2 -> R w2 w3 -> R w1 w3.

Lemma keeps_ret {A} (a : A) : keeps R (ret a).
Proof. intros w. apply R_refl. Qed.

Lemma keeps_raise {A} (e : exn) : keeps R (@raise A e).
Proof. intros w. apply R_refl. Qed.

Lemma keeps_gets {A} (f : World -> A) : keeps R (gets f).
Proof. intros w. apply R_refl. Qed.

Lemma keeps_lift {A} (o : outcome A) : keeps R (lift o).
Proof. intros w. apply R_refl. Qed.

Lemma keeps_modify (f : World -> World) :
  (forall w, R w (f w)) -> keeps R (modify f).
Proof. intros H w. apply H. Qed.

Lemma keeps_bind {A B} (m : M A) (k : A -> M B) :
  keeps R m -> (forall a, keeps R (k a)) -> keeps R (bind m k).
Proof.
  intros Hm Hk w. unfold bind.
  specialize (Hm w). destruct (m w) as [[a|e] w1]; simpl in *.
  - eapply R_trans; [exact Hm|apply Hk].
  - exact Hm.
Qed.

Lemma keeps_get_page_obj (l : list Post) (n : Z) (request : HttpRequest) :
  keeps R (get_page_obj l n request).
Proof.
  unfold get_page_obj. destruct (get_page _ _); [apply keeps_raise|apply keeps_ret].
Qed.

Lemma keeps_login_required (request : HttpRequest) (view : M HttpResponse) :
  keeps R view -> keeps R (login_required request view).
Proof.
  intros H. unfold login_required.
  destruct (is_authenticated (user request)); [exact H|apply keeps_ret].
Qed.

End Frames.

Ltac keeps_step Hr Ht :=
  first
    [ apply (keeps_login_required _ Hr)
    | apply (keeps_bind _ Ht); [|intros ?]
    | apply (keeps_ret _ Hr)
    | apply (keeps_raise _ Hr)
    | apply (keeps_gets _ Hr)
    | apply (keeps_lift _ Hr)
    | apply (keeps_get_page_obj _ Hr)
    | match goal with
      | |- keeps _ (if ?b then _ else _) => destruct b
      | |- keeps _ (match ?x with _ => _ end) => destruct x
      end ].

Ltac keeps_tac Hr Ht := repeat (keeps_step Hr Ht).

Lemma eq_refl_world (w : World) : w = w.
Proof. reflexivity. Qed.

Lemma eq_trans_world (w1 w2 w3 : World) : w1 = w2 -> w2 = w3 -> w1 = w3.
Proof. congruence. Qed.

(** X6.  The views that show a page, the group feed, the profile, the
    detail of a post and the follow feed, write nothing: the world after
    the request is the world before it, whether the view answered or
    raised. *)
Theorem read_views_write_nothing
        (request : HttpRequest) (s name : string) (pk : Z) (w : World) :
  snd (group_posts request s w) = w /\
  snd (profile request name w) = w /\
  snd (post_detail request pk w) = w /\
  snd (follow_index request w) = w.
Proof.
  assert (Hg : keeps (fun a b => a = b) (group_posts request s)).
  { unfold group_posts, get_Group_or_404_slug, group_posts_all, Post_queryset.
    keeps_tac eq_refl_world eq_trans_world. }
  assert (Hp : keeps (fun a b => a = b) (profile request name)).
  { unfold profile, User_objects_get_username, Post_objects_filter_author,
      Post_queryset, Follow_objects_filter.
    keeps_tac eq_refl_world eq_trans_world. }
  assert (Hd : keeps (fun a b => a = b) (post_detail request pk)).
  { unfold post_detail, Post_objects_get_pk, Comment_objects_filter_post.
    keeps_tac eq_refl_world eq_trans_world. }
  assert (Hf : keeps (fun a b => a = b) (follow_index request)).
  { unfold follow_index, follow_index_view,
      Post_objects_filter_author__following__user.
    keeps_tac eq_refl_world eq_trans_world. }
  repeat split; symmetry; [apply Hg|apply Hp|apply Hd|apply Hf].
Qed.

Ltac frame_refl := intros ?; repeat split.
Ltac frame_trans :=
  let H1 := fresh in let H2 := fresh in
  intros ? ? ? H1 H2; red in H1, H2; red; intuition congruence.

Lemma only_posts_refl : forall w, only_posts w w.
Proof. frame_refl. Qed.
Lemma only_posts_trans :
  forall w1 w2 w3, only_posts w1 w2 -> only_posts w2 w3 -> only_posts w1 w3.
Proof. frame_trans. Qed.

Lemma only_comments_refl : forall w, only_comments w w.
Proof. frame_refl. Qed.
Lemma only_comments_trans :
  forall w1 w2 w3,
    only_comments w1 w2 -> only_comments w2 w3 -> only_comments w1 w3.
Proof. frame_trans. Qed.

Lemma only_follows_refl : forall w, only_follows w w.
Proof. frame_refl. Qed.
Lemma only_follows_trans :
  forall w1 w2 w3,
    only_follows w1 w2 -> only_follows w2 w3 -> only_follows w1 w3.
Proof. frame_trans. Qed.

Lemma only_cache_refl : forall w, only_cache w w.
Proof. frame_refl. Qed.
Lemma only_cache_trans :
  forall w1 w2 w3, only_cache w1 w2 -> only_cache w2 w3 -> only_cache w1 w3.
Proof. frame_trans. Qed.

Ltac writes_tac Hr Ht :=
  repeat first [ keeps_step Hr Ht
               | apply keeps_modify; intros ?; repeat split ].

(** X7.  A view that writes, writes to one table only: [post_create] and
    [post_edit] to the posts, [add_comment] to the comments,
    [profile_follow] and [profile_unfollow] to the follows, and [index] to
    the cache; the users, the groups and everything else are as they
    were, whether the view answered or raised. *)
Theorem views_write_one_table
        (request : HttpRequest) (name : string) (pk : Z) (w : World) :
  only_posts w (snd (post_create request w)) /\
  only_posts w (snd (post_edit request pk w)) /\
  only_comments w (snd (add_comment request pk w)) /\
  only_follows w (snd (profile_follow request name w)) /\
  only_follows w (snd (profile_unfollow request name w)) /\
  only_cache w (snd (index request w)).
Proof.
  refine (conj _ (conj _ (conj _ (conj _ (conj _ _))))).
  - assert (H : keeps only_posts (post_create request)); [|apply H].
    unfold post_create, post_create_view, Post_save_new, returns_None.
    writes_tac only_posts_refl only_posts_trans.
  - assert (H : keeps only_posts (post_edit request pk)); [|apply H].
    unfold post_edit, post_edit_view, Post_objects_get_pk, Post_save_update,
      returns_None.
    writes_tac only_posts_refl only_posts_trans.
  - assert (H : keeps only_comments (add_comment request pk)); [|apply H].
    unfold add_comment, add_comment_view, Post_objects_get_pk, Comment_save_new.
    writes_tac only_comments_refl only_comments_trans.
  - assert (H : keeps only_follows (profile_follow request name)); [|apply H].
    unfold profile_follow, profile_follow_view, User_objects_get_username,
      Follow_save.
    writes_tac only_follows_refl only_follows_trans.
  - assert (H : keeps only_follows (profile_unfollow request name)); [|apply H].
    unfold profile_unfollow, profile_unfollow_view, User_objects_get_username,
      Follow_objects_filter_delete.
    writes_tac only_follows_refl only_follows_trans.
  - assert (H : keeps only_cache (index request)); [|apply H].
    unfold index, cache_page, index_view,
      Post_objects_all_order_by_pub_date_desc, cache_set.
    writes_tac only_cache_refl only_cache_trans.
Qed.

(* ===================================================================== *)
(** * Further properties: the views that write *)
(* ===================================================================== *)

(** X8.  The follow feed, following and unfollowing need a logged-in
    user as well: a guest is answered with the redirect to the login URL,
    [next] being the requested URL, and no row is written or deleted. *)
Theorem follow_views_guest
        (request : HttpRequest) (name : string) (w : World) :
  user request = AnonymousUser ->
  let login := HttpResponseRedirect
                 (ToLogin LOGIN_URL "next" (get_full_path request)) in
  follow_index request w = (Ok login, w) /\
  profile_follow request name w = (Ok login, w) /\
  profile_unfollow request name w = (Ok login, w).
Proof.
  intros Hu login.
  unfold follow_index, profile_follow, profile_unfollow, login_required.
  rewrite Hu. repeat split.
Qed.

Lemma next_pk_fresh (pks : list Z) (k : Z) : In k pks -> k < next_pk pks.
Proof.
  unfold next_pk. induction pks as [|x pks IH]; cbn [fold_right In]; [tauto|].
  intros [->|H]; [lia|]. specialize (IH H). lia.
Qed.

(** X9.  A POST of a valid form by a logged-in user creates exactly one
    post: it is appended to the table under a key no post had, its author
    is the user, its date the time of the request and its text the
    submitted one; the answer is the redirect to the profile of the
    user. *)
Theorem post_create_saves (request : HttpRequest) (u : User) (w : World) :
  user request = AuthUser u ->
  method request = POST ->
  PostForm_is_valid (groups w) (create_form request) = true ->
  exists p,
    post_create request w =
      (Ok (HttpResponseRedirect (ToRoute (posts_profile (username u)))),
       set_posts (fun ps => ps ++ [p])%list w) /\
    author p = user_id u /\
    pub_date p = clock w /\
    text p = field_value (or_None (req_POST request)) "text" /\
    (forall q, In q (posts w) -> post_id q < post_id p).
Proof.
  intros Hu Hm Hv.
  unfold post_create, login_required, post_create_view. rewrite Hu. simpl.
  fold (create_form request). unfold is_POST. rewrite Hm.
  unfold Post_save_new. run_view. rewrite Hv. simpl.
  eexists. split; [reflexivity|]. simpl. repeat split.
  intros q Hq. apply next_pk_fresh. now apply in_map.
Qed.

(** X10.  A GET of the form, or a POST that does not validate, creates
    nothing: the page of the form is rendered with the form, which for a
    POST with data is bound and shows its errors. *)
Theorem post_create_shows_form (request : HttpRequest) (u : User) (w : World) :
  user request = AuthUser u ->
  method request = GET \/
  PostForm_is_valid (groups w) (create_form request) = false ->
  let page := render "posts/create_post.html"
                     (ctx_create_post (create_form request)) in
  post_create request w = (Ok page, w) /\
  (req_POST request <> [] ->
   PostForm_is_valid (groups w) (create_form request) = false ->
   shows_form_errors (groups w) page = true).
Proof.
  intros Hu Hc page. split.
  - unfold post_create, login_required, post_create_view. rewrite Hu. simpl.
    fold (create_form request). run_view. unfold is_POST.
    destruct Hc as [-> | ->]; [reflexivity|].
    now rewrite orb_true_r.
  - intros Hd Hv. simpl. rewrite Hv.
    unfold PostForm_is_bound, create_form. simpl.
    destruct (req_POST request); [contradiction|reflexivity].
Qed.

Lemma filter_map_same (f : Post -> Post) (keep : Post -> bool) (l : list Post) :
  (forall x, keep (f x) = keep x) ->
  filter keep (map f l) = map f (filter keep l).
Proof.
  intros H. induction l as [|x l IH]; simpl; [reflexivity|].
  rewrite H. destruct (keep x); simpl; now rewrite IH.
Qed.

Lemma objects_get_singleton {A} (l : list A) (x : A) :
  objects_get l = Ok x -> l = [x].
Proof.
  destruct l as [|y [|z l]]; simpl; try discriminate. now intros [= ->].
Qed.

Lemma Post_objects_get_pk_rows (pk : Z) (w : World) (p : Post) :
  Post_objects_get_pk pk w = (Ok p, w) ->
  filter (fun q => post_id q =? pk) (posts w) = [p].
Proof.
  unfold Post_objects_get_pk. run_view. intros H.
  apply objects_get_singleton. now injection H.
Qed.

(** X11.  A POST of a valid form by the author of a post changes that
    post and no other: the row keeps its key, its date and its author and
    takes the submitted text, the other rows are as they were, and no row
    is added; the answer is the redirect to the detail of the post. *)
Theorem post_edit_saves
        (request : HttpRequest) (pk : Z) (u : User) (p : Post) (w : World) :
  user request = AuthUser u ->
  Post_objects_get_pk pk w = (Ok p, w) ->
  author p = user_id u ->
  method request = POST ->
  PostForm_is_valid (groups w) (edit_form request p) = true ->
  exists w' p',
    post_edit request pk w =
      (Ok (HttpResponseRedirect (ToRoute (posts_post_detail pk))), w') /\
    Post_objects_get_pk pk w' = (Ok p', w') /\
    post_id p' = post_id p /\ pub_date p' = pub_date p /\
    author p' = author p /\
    text p' = field_value (or_None (req_POST request)) "text" /\
    List.length (posts w') = List.length (posts w) /\
    (forall q, In q (posts w) -> post_id q <> pk -> In q (posts w')) /\
    (forall q, In q (posts w') -> post_id q <> pk -> In q (posts w)).
Proof.
  intros Hu Hp Ha Hm Hv.
  pose proof (Post_objects_get_pk_rows pk w p Hp) as Hrows.
  assert (Hpk : post_id p = pk).
  { assert (Hin : In p (filter (fun q => post_id q =? pk) (posts w)))
      by (rewrite Hrows; now left).
    apply filter_In in Hin as [_ Hin]. now apply Z.eqb_eq. }
  unfold post_edit, login_required, post_edit_view. rewrite Hu. simpl.
  unfold bind at 1. rewrite Hp. fold (edit_form request p).
  unfold Post_save_update. run_view.
  unfold author_is. rewrite Ha, Z.eqb_refl. simpl.
  unfold is_POST. rewrite Hm, Hv. simpl.
  eexists; eexists. split; [reflexivity|].
  unfold Post_objects_get_pk. run_view. simpl posts.
  rewrite filter_map_same
    by (intros x; destruct (Z.eqb_spec (post_id x) (post_id p));
        [simpl; now rewrite e | reflexivity]).
  rewrite Hrows. simpl. rewrite Hpk, Z.eqb_refl.
  split; [reflexivity|]. simpl.
  split; [congruence|]. split; [reflexivity|]. split; [congruence|].
  split; [reflexivity|]. split; [apply length_map|]. split.
  - intros q Hq Hne. apply in_map_iff. exists q. split; [|exact Hq].
    destruct (Z.eqb_spec (post_id q) pk); [contradiction|reflexivity].
  - intros q Hq Hne. apply in_map_iff in Hq as (x & Hx & Hin).
    destruct (Z.eqb_spec (post_id x) pk) as [E|E].
    + subst q. simpl in Hne. contradiction.
    + now subst q.
Qed.

(** X12.  A GET by the author of a post, or a POST of theirs that does
    not validate, changes nothing: the page of the form is rendered with
    the form bound to the post, the key of the post and [is_edit]. *)
Theorem post_edit_shows_form
        (request : HttpRequest) (pk : Z) (u : User) (p : Post) (w : World) :
  user request = AuthUser u ->
  Post_objects_get_pk pk w = (Ok p, w) ->
  author p = user_id u ->
  method request = GET \/
  PostForm_is_valid (groups w) (edit_form request p) = false ->
  post_edit request pk w =
    (Ok (render "posts/create_post.html"
                (ctx_edit_post (edit_form request p) pk true)), w).
Proof.
  intros Hu Hp Ha Hc.
  unfold post_edit, login_required, post_edit_view. rewrite Hu. simpl.
  unfold bind at 1. rewrite Hp. fold (edit_form request p). run_view.
  unfold author_is. rewrite Ha, Z.eqb_refl. simpl. unfold is_POST.
  destruct Hc as [-> | ->]; [reflexivity|].
  now rewrite orb_true_r.
Qed.

(** X13.  A valid comment of a logged-in user on an existing post is
    saved as one new row, by that user, on that post, with the submitted
    text and the time of the request; the answer is the redirect to the
    detail of the post, and the detail page then lists the new comment
    together with the comments it listed before, in whichever order. *)
Theorem add_comment_saves
        (request request' : HttpRequest) (pk : Z) (u : User) (p : Post)
        (w : World) :
  user request = AuthUser u ->
  Post_objects_get_pk pk w = (Ok p, w) ->
  CommentForm_is_valid (comment_form request) = true ->
  exists c w' before after,
    add_comment request pk w =
      (Ok (HttpResponseRedirect (ToRoute (posts_post_detail pk))), w') /\
    Permutation (comments w') (c :: comments w) /\
    comment_author c = user_id u /\ comment_post c = post_id p /\
    comment_text c = field_value (or_None (req_POST request)) "text" /\
    comment_created c = clock w /\
    post_detail request' pk w =
      (Ok (render "posts/post_detail.html"
                  (ctx_post_detail p before (mkCommentForm None))), w) /\
    post_detail request' pk w' =
      (Ok (render "posts/post_detail.html"
                  (ctx_post_detail p after (mkCommentForm None))), w') /\
    Permutation after (c :: before).
Proof.
  intros Hu Hp Hv.
  pose proof (Post_objects_get_pk_rows pk w p Hp) as Hrows.
  unfold add_comment, login_required, add_comment_view. rewrite Hu. simpl.
  unfold bind at 1. rewrite Hp. fold (comment_form request). rewrite Hv.
  unfold Comment_save_new. run_view. simpl.
  eexists; eexists; eexists; eexists. split; [reflexivity|]. simpl.
  split; [apply Permutation_sym, Permutation_cons_append|].
  split; [reflexivity|]. split; [reflexivity|].
  split; [reflexivity|]. split; [reflexivity|].
  unfold post_detail, Post_objects_get_pk, Comment_objects_filter_post.
  run_view. simpl. rewrite Hrows. simpl. split; [reflexivity|].
  rewrite filter_app. simpl. rewrite Z.eqb_refl.
  split; [reflexivity|]. apply Permutation_sym, Permutation_cons_append.
Qed.

(* ===================================================================== *)
(** * Further properties: what a feed shows *)
(* ===================================================================== *)

Lemma apply_ordering_In (x : Post) (l : list Post) :
  In x (apply_ordering Post_Meta_ordering l) <-> In x l.
Proof. simpl. apply order_by_pub_date_desc_In. Qed.

(** X14.  The group feed shows posts of the group only, and the profile
    posts of the author only; its [post_list] are all the posts of the
    author and no other. *)
Theorem filtered_feeds_show_matching
        (request : HttpRequest) (s name : string) (g : Group) (u a : User)
        (w : World) :
  get_Group_or_404_slug s w = (Ok g, w) ->
  user request = AuthUser u ->
  User_objects_get_username name w = (Ok a, w) ->
  (forall x, In x (served_posts (group_posts request s w)) ->
             In x (posts w) /\ group x = Some (group_id g)) /\
  (forall x, In x (served_posts (profile request name w)) ->
             In x (posts w) /\ author x = user_id a) /\
  (exists post_list pg following,
     profile request name w =
       (Ok (render "posts/profile.html" (ctx_profile a post_list pg following)),
        w) /\
     forall x, In x post_list <-> In x (posts w) /\ author x = user_id a).
Proof.
  intros Hg Hu Ha.
  assert (Hprofile :
    exists pg following,
      profile request name w =
        (Ok (render "posts/profile.html"
               (ctx_profile a (apply_ordering Post_Meta_ordering
                                 (filter (fun p => author p =? user_id a)
                                         (posts w)))
                            pg following)), w) /\
      forall x, In x (page_object_list pg) ->
                In x (posts w) /\ author x = user_id a).
  { unfold profile. unfold bind at 1. rewrite Ha.
    unfold Post_objects_filter_author, Post_queryset. run_view.
    match goal with
    | |- context [get_page_obj ?l POSTS_COUNT request w] =>
        destruct (@get_page_obj_sorted l request w) as (pg & -> & _ & Hin);
        [apply apply_ordering_sorted|]
    end.
    unfold Follow_objects_filter. rewrite Hu. run_view. simpl User_of.
    cbv beta iota. eexists; eexists. split; [reflexivity|].
    intros x Hx. apply Hin, apply_ordering_In, filter_In in Hx as [H1 H2].
    split; [exact H1|]. now apply Z.eqb_eq. }
  split; [|split].
  - unfold group_posts. unfold bind at 1. rewrite Hg.
    unfold group_posts_all, Post_queryset. run_view.
    match goal with
    | |- context [get_page_obj ?l POSTS_COUNT request w] =>
        destruct (@get_page_obj_sorted l request w) as (pg & E & _ & Hin);
        [apply apply_ordering_sorted|]
    end.
    intros x. rewrite E. unfold served_posts. simpl. intros Hx.
    apply Hin, apply_ordering_In, filter_In in Hx as [H1 H2].
    split; [exact H1|].
    destruct (group x) as [i|]; [|discriminate].
    apply Z.eqb_eq in H2. now subst.
  - destruct Hprofile as (pg & fl & E & Hin).
    intros x. rewrite E. unfold served_posts. simpl. apply Hin.
  - destruct Hprofile as (pg & fl & E & _).
    eexists; exists pg, fl. split; [exact E|].
    intros x. rewrite apply_ordering_In, filter_In, Z.eqb_eq. tauto.
Qed.

(** X15.  The follow feed shows posts of authors the user follows only;
    a user who follows nobody is shown an empty page. *)
Theorem follow_feed_shows_followed
        (request : HttpRequest) (u : User) (w : World) :
  user request = AuthUser u ->
  (forall x, In x (served_posts (follow_index request w)) ->
             In x (posts w) /\ follows_author_of w u x) /\
  ((forall f, In f (follows w) -> follow_user f <> user_id u) ->
   served_posts (follow_index request w) = []).
Proof.
  intros Hu.
  unfold follow_index, login_required, follow_index_view. rewrite Hu. simpl.
  unfold Post_objects_filter_author__following__user. run_view.
  simpl User_of. cbv beta iota.
  match goal with
  | |- context [get_page_obj ?l POSTS_COUNT request w] =>
      destruct (@get_page_obj_sorted l request w) as (pg & E & _ & Hin);
      [apply apply_ordering_sorted|]
  end.
  rewrite E. unfold served_posts. simpl.
  assert (Hall : forall x, In x (page_object_list pg) ->
                           In x (posts w) /\ follows_author_of w u x).
  { intros x Hx.
    apply Hin, apply_ordering_In, in_flat_map in Hx as (p & Hp & Hx).
    apply in_map_iff in Hx as (f & -> & Hf).
    apply filter_In in Hf as [Hf Hm].
    apply andb_true_iff in Hm as [H1 H2].
    apply Z.eqb_eq in H1, H2.
    split; [exact Hp|]. exists f. auto. }
  split; [exact Hall|].
  intros Hnone. destruct (page_object_list pg) as [|x l] eqn:El; [reflexivity|].
  destruct (Hall x (or_introl eq_refl)) as [_ (f & Hf & Hfu & _)].
  now apply Hnone in Hf.
Qed.

Lemma filter_idem {A} (f : A -> bool) (l : list A) :
  filter f (filter f l) = filter f l.
Proof.
  induction l as [|x l IH]; simpl; [reflexivity|].
  destruct (f x) eqn:E; simpl; [rewrite E; now f_equal|exact IH].
Qed.

(** X16.  Unfollowing deletes the rows of the pair and no other row, and
    unfollowing once more changes nothing. *)
Theorem profile_unfollow_other_rows
        (request : HttpRequest) (name : string) (u a : User) (w : World) :
  user request = AuthUser u ->
  User_objects_get_username name w = (Ok a, w) ->
  let done := Ok (HttpResponseRedirect (ToRoute (posts_profile name))) in
  exists w',
    profile_unfollow request name w = (done, w') /\
    (forall f, In f (follows w') <->
               In f (follows w) /\
               ~ (follow_user f = user_id u /\ follow_author f = user_id a)) /\
    profile_unfollow request name w' = (done, w').
Proof.
  intros Hu Ha done.
  assert (Hrun : forall w0, User_objects_get_username name w0 = (Ok a, w0) ->
            profile_unfollow request name w0 =
              (done, set_follows (filter (fun f => negb (follow_matches u a f))) w0)).
  { intros w0 H0.
    unfold profile_unfollow, login_required, profile_unfollow_view.
    rewrite Hu. simpl. unfold bind at 1. rewrite H0. reflexivity. }
  eexists. split; [now apply Hrun|]. split.
  - intros f. simpl. rewrite filter_In, negb_true_iff.
    unfold follow_matches. rewrite andb_false_iff, !Z.eqb_neq.
    split; intros [H1 H2]; (split; [exact H1|]); [tauto|].
    destruct (Z.eq_dec (follow_user f) (user_id u)); [right; tauto|now left].
  - rewrite Hrun.
    + unfold set_follows. simpl. now rewrite filter_idem.
    + apply User_objects_get_username_users with w; [reflexivity|exact Ha].
Qed.

(* ===================================================================== *)
(** * Further properties: the site feed and its cache *)
(* ===================================================================== *)

Lemma index_keeps_store (request : HttpRequest) : keeps only_cache (index request).
Proof.
  unfold index, cache_page, index_view,
    Post_objects_all_order_by_pub_date_desc, cache_set.
  writes_tac only_cache_refl only_cache_trans.
Qed.

Lemma index_cache_other_url (r1 r2 : HttpRequest) (w : World) (now : Z) :
  get_full_path r1 <> get_full_path r2 ->
  cache_get (cache (snd (index r1 w))) ("index_page", get_full_path r2) now
  = cache_get (cache w) ("index_page", get_full_path r2) now.
Proof.
  intros Hne.
  destruct (index_view_page r1 w) as (t & pg & Hv & _).
  unfold index, cache_page. destruct (method r1).
  - run_view.
    destruct (cache_get (cache w) _ (clock w)); [reflexivity|].
    rewrite Hv. simpl.
    apply String.eqb_neq in Hne. now rewrite Hne.
  - now rewrite Hv.
Qed.

(** X17.  The cache of the site feed is kept by URL: answering one URL
    leaves what the cache holds for every other URL as it was, so a GET
    of a URL the cache has no live entry for is rendered from the store
    as it is now, whatever other URLs have been cached. *)
Theorem index_cache_per_url (r1 r2 : HttpRequest) (w : World) :
  get_full_path r1 <> get_full_path r2 ->
  method r2 = GET ->
  cache_get (cache w) ("index_page", get_full_path r2) (clock w) = None ->
  let w1 := snd (index r1 w) in
  (forall now,
     cache_get (cache w1) ("index_page", get_full_path r2) now
     = cache_get (cache w) ("index_page", get_full_path r2) now) /\
  exists resp w2,
    index r2 w1 = (Ok resp, w2) /\
    index_view r2 w1 = (Ok resp, w1) /\
    forall x, In x (response_posts resp) -> In x (posts w).
Proof.
  intros Hne Hm Hmiss w1.
  split; [intros now; now apply index_cache_other_url|].
  destruct (index_keeps_store r1 w) as (_ & _ & Hposts & _ & _ & Hclock).
  fold w1 in Hposts, Hclock.
  assert (Hmiss1 : cache_get (cache w1) ("index_page", get_full_path r2)
                             (clock w1) = None).
  { unfold w1. rewrite index_cache_other_url by exact Hne.
    fold w1. now rewrite Hclock. }
  destruct (index_miss r2 w1 Hm Hmiss1) as (t & pg & Hv & Hi & Hin).
  cbv zeta in Hv, Hi.
  eexists; eexists. split; [exact Hi|]. split; [exact Hv|].
  simpl. intros x Hx. rewrite <- Hposts. now apply Hin.
Qed.

Lemma index_view_first_page (request : HttpRequest) (w : World) :
  asks_no_page request ->
  exists t,
    index_view request w =
      (Ok (render "posts/index.html"
             (ctx_index t (mkPage (firstn 10 (order_by_pub_date_desc (posts w)))
                                  1
                                  (feed_paginator
                                     (order_by_pub_date_desc (posts w)))))),
       w).
Proof.
  intros H. unfold index_view, Post_objects_all_order_by_pub_date_desc. run_view.
  rewrite (get_page_obj_first _ request w H). eexists. reflexivity.
Qed.

(** X18.  The first page of the site feed, rendered on a miss of the
    cache for a request without a [page] parameter (or with an ASCII one
    that [int()] refuses), starts with a newest post of the store: no
    post is newer than the one on top. *)
Theorem index_newest_on_top (request : HttpRequest) (w : World) (x : Post) :
  method request = GET ->
  cache_get (cache w) ("index_page", get_full_path request) (clock w) = None ->
  asks_no_page request ->
  In x (posts w) ->
  exists resp w' top,
    index request w = (Ok resp, w') /\
    hd_error (response_posts resp) = Some top /\
    In top (posts w) /\
    pub_date x <= pub_date top.
Proof.
  intros Hm Hmiss Hp Hx.
  destruct (index_miss request w Hm Hmiss) as (t & pg & Hv & Hi & _).
  cbv zeta in Hv, Hi.
  destruct (index_view_first_page request w Hp) as (t' & Hf).
  rewrite Hf in Hv. injection Hv as _ <-.
  pose proof (order_by_pub_date_desc_sorted (posts w)) as Hs.
  pose proof (proj2 (order_by_pub_date_desc_In x (posts w)) Hx) as Hx'.
  pose proof (fun y => proj1 (order_by_pub_date_desc_In y (posts w))) as Hback.
  destruct (order_by_pub_date_desc (posts w)) as [|y l]; [contradiction|].
  eexists; eexists; exists y. split; [exact Hi|]. simpl.
  split; [reflexivity|]. split; [apply Hback; now left|].
  inversion Hs as [|? ? _ Hall]; subst.
  destruct Hx' as [->|Hx']; [lia|].
  rewrite Forall_forall in Hall. now apply Hall.
Qed.

Lemma served_posts_index_view (request : HttpRequest) (w : World) :
  served_posts (index_view request w)
  = page_of (get_page_obj (order_by_pub_date_desc (posts w)) POSTS_COUNT
                          request w).
Proof.
  unfold index_view, Post_objects_all_order_by_pub_date_desc. run_view.
  destruct (get_page_obj _ _ _ w) as [[pg|e] w']; reflexivity.
Qed.

(** X19.  The pages of the site feed, from the first to the last, show
    every post of the store exactly once, newest first across the
    pages. *)
Theorem index_pages_cover_store (page_request : Z -> HttpRequest) (w : World) :
  (forall k, 1 <= k <= num_pages (feed_paginator (posts w)) ->
             asks_page (page_request k) k) ->
  let pages :=
    List.concat
      (map (fun i => served_posts (index_view (page_request (Z.of_nat i + 1)) w))
           (seq 0 (Z.to_nat (num_pages (feed_paginator (posts w)))))) in
  Permutation pages (posts w) /\ newest_first pages.
Proof.
  intros Hreq pages.
  assert (Hn : num_pages (feed_paginator (order_by_pub_date_desc (posts w)))
               = num_pages (feed_paginator (posts w))).
  { rewrite !num_pages_feed.
    now rewrite <- (Permutation_length (order_by_pub_date_desc_perm (posts w))). }
  assert (E : pages = order_by_pub_date_desc (posts w)).
  { unfold pages.
    rewrite (map_ext _ (fun i =>
               page_of (get_page_obj (order_by_pub_date_desc (posts w))
                          POSTS_COUNT (page_request (Z.of_nat i + 1)) w)))
      by (intros i; apply served_posts_index_view).
    rewrite <- Hn. apply pages_concat. now rewrite Hn. }
  rewrite E. split.
  - apply Permutation_sym, order_by_pub_date_desc_perm.
  - apply order_by_pub_date_desc_sorted.
Qed.

(** X20.  Following or unfollowing a username no user has raises
    [DoesNotExist], which nothing catches, and writes nothing. *)
Theorem follow_unknown_username
        (request : HttpRequest) (name : string) (u : User) (w : World) :
  user request = AuthUser u ->
  (forall x, In x (users w) -> username x <> name) ->
  get_response (profile_follow request name) w
    = (ServerError500 DoesNotExist, w) /\
  get_response (profile_unfollow request name) w
    = (ServerError500 DoesNotExist, w).
Proof.
  intros Hu H. apply User_objects_get_username_unknown in H.
  unfold get_response, profile_follow, profile_unfollow, login_required,
    profile_follow_view, profile_unfollow_view.
  rewrite Hu. simpl. split; unfold bind at 1; now rewrite H.
Qed.

(* ===================================================================== *)
(** * The further properties at the fixture of the tests *)
(* ===================================================================== *)

Lemma get_page_obj_no_page_witness :
  asks_no_page page_abc_request /\
  get_page_obj twelve_posts POSTS_COUNT page_abc_request fixture
    = (Ok (mkPage (firstn 10 twelve_posts) 1 (feed_paginator twelve_posts)),
       fixture).
Proof.
  assert (H : asks_no_page page_abc_request) by (repeat split).
  split; [exact H|].
  exact (get_page_obj_no_page twelve_posts page_abc_request fixture H).
Defined.

Lemma get_page_obj_in_range_witness :
  asks_page page2_request 2 /\
  1 <= 2 <= num_pages (feed_paginator twelve_posts) /\
  get_page_obj twelve_posts POSTS_COUNT page2_request fixture
    = (Ok (mkPage (firstn 10 (skipn (Z.to_nat (10 * (2 - 1))) twelve_posts)) 2
                  (feed_paginator twelve_posts)), fixture).
Proof.
  assert (H1 : asks_page page2_request 2)
    by (exists "2"; repeat split).
  assert (H2 : 1 <= 2 <= num_pages (feed_paginator twelve_posts))
    by (vm_compute; split; discriminate).
  repeat (split; [assumption|]).
  exact (get_page_obj_in_range twelve_posts page2_request 2 fixture H1 H2).
Defined.

Lemma get_page_obj_out_of_range_witness :
  asks_page page99_request 99 /\
  (99 < 1 \/ num_pages (feed_paginator twelve_posts) < 99) /\
  get_page_obj twelve_posts POSTS_COUNT page99_request fixture
    = (Ok (mkPage (firstn 10
                     (skipn (Z.to_nat
                               (10 * (num_pages (feed_paginator twelve_posts) - 1)))
                            twelve_posts))
                  (num_pages (feed_paginator twelve_posts))
                  (feed_paginator twelve_posts)), fixture).
Proof.
  assert (H1 : asks_page page99_request 99)
    by (exists "99"; repeat split).
  assert (H2 : 99 < 1 \/ num_pages (feed_paginator twelve_posts) < 99)
    by (right; reflexivity).
  repeat (split; [assumption|]).
  exact (get_page_obj_out_of_range twelve_posts page99_request 99 fixture H1 H2).
Defined.

Lemma two_pages_ask (k : Z) :
  1 <= k <= num_pages (feed_paginator twelve_posts) -> asks_page (two_pages k) k.
Proof.
  change (num_pages (feed_paginator twelve_posts)) with 2. intros Hk.
  assert (Hc : k = 1 \/ k = 2) by lia.
  destruct Hc as [-> | ->]; [exists "1" | exists "2"]; repeat split.
Defined.

Lemma pages_cover_list_witness :
  (forall k, 1 <= k <= num_pages (feed_paginator twelve_posts) ->
             asks_page (two_pages k) k) /\
  List.concat
    (map (fun i => page_of (get_page_obj twelve_posts POSTS_COUNT
                              (two_pages (Z.of_nat i + 1)) fixture))
         (seq 0 (Z.to_nat (num_pages (feed_paginator twelve_posts)))))
  = twelve_posts.
Proof.
  split; [exact two_pages_ask|].
  exact (pages_cover_list twelve_posts two_pages fixture two_pages_ask).
Defined.

Lemma follow_views_guest_witness :
  user guest_follow = AnonymousUser /\
  profile_follow guest_follow "followed" fixture
    = (Ok (HttpResponseRedirect
             (ToLogin "/auth/login/" "next" "/profile/followed/follow/")),
       fixture).
Proof.
  assert (H : user guest_follow = AnonymousUser) by reflexivity.
  split; [exact H|].
  exact (proj1 (proj2 (follow_views_guest guest_follow "followed" fixture H))).
Defined.

Lemma post_create_saves_witness :
  user auth_create = AuthUser auth /\
  method auth_create = POST /\
  PostForm_is_valid (groups fixture) (create_form auth_create) = true /\
  exists p,
    post_create auth_create fixture =
      (Ok (HttpResponseRedirect (ToRoute (posts_profile (username auth)))),
       set_posts (fun ps => ps ++ [p])%list fixture) /\
    author p = user_id auth /\
    pub_date p = clock fixture /\
    text p = field_value (or_None (req_POST auth_create)) "text" /\
    (forall q, In q (posts fixture) -> post_id q < post_id p).
Proof.
  assert (H1 : user auth_create = AuthUser auth) by reflexivity.
  assert (H2 : method auth_create = POST) by reflexivity.
  assert (H3 : PostForm_is_valid (groups fixture) (create_form auth_create)
               = true) by reflexivity.
  repeat (split; [assumption|]).
  exact (post_create_saves auth_create auth fixture H1 H2 H3).
Defined.

Lemma post_create_shows_form_witness :
  user auth_create_form = AuthUser auth /\
  (method auth_create_form = GET \/
   PostForm_is_valid (groups fixture) (create_form auth_create_form) = false) /\
  post_create auth_create_form fixture
    = (Ok (render "posts/create_post.html"
                  (ctx_create_post (create_form auth_create_form))), fixture).
Proof.
  assert (H1 : user auth_create_form = AuthUser auth) by reflexivity.
  assert (H2 : method auth_create_form = GET \/
               PostForm_is_valid (groups fixture) (create_form auth_create_form)
               = false) by (left; reflexivity).
  repeat (split; [assumption|]).
  exact (proj1 (post_create_shows_form auth_create_form auth fixture H1 H2)).
Defined.

Lemma post_edit_saves_witness :
  user auth_edit = AuthUser auth /\
  Post_objects_get_pk 1 fixture = (Ok test_post, fixture) /\
  author test_post = user_id auth /\
  method auth_edit = POST /\
  PostForm_is_valid (groups fixture) (edit_form auth_edit test_post) = true /\
  exists w' p',
    post_edit auth_edit 1 fixture =
      (Ok (HttpResponseRedirect (ToRoute (posts_post_detail 1))), w') /\
    Post_objects_get_pk 1 w' = (Ok p', w') /\
    post_id p' = post_id test_post /\ pub_date p' = pub_date test_post /\
    author p' = author test_post /\
    text p' = field_value (or_None (req_POST auth_edit)) "text" /\
    List.length (posts w') = List.length (posts fixture) /\
    (forall q, In q (posts fixture) -> post_id q <> 1 -> In q (posts w')) /\
    (forall q, In q (posts w') -> post_id q <> 1 -> In q (posts fixture)).
Proof.
  assert (H1 : user auth_edit = AuthUser auth) by reflexivity.
  assert (H2 : Post_objects_get_pk 1 fixture = (Ok test_post, fixture))
    by reflexivity.
  assert (H3 : author test_post = user_id auth) by reflexivity.
  assert (H4 : method auth_edit = POST) by reflexivity.
  assert (H5 : PostForm_is_valid (groups fixture) (edit_form auth_edit test_post)
               = true) by reflexivity.
  repeat (split; [assumption|]).
  exact (post_edit_saves auth_edit 1 auth test_post fixture H1 H2 H3 H4 H5).
Defined.

Lemma post_edit_shows_form_witness :
  user auth_edit_form = AuthUser auth /\
  Post_objects_get_pk 1 fixture = (Ok test_post, fixture) /\
  author test_post = user_id auth /\
  (method auth_edit_form = GET \/
   PostForm_is_valid (groups fixture) (edit_form auth_edit_form test_post)
   = false) /\
  post_edit auth_edit_form 1 fixture =
    (Ok (render "posts/create_post.html"
                (ctx_edit_post (edit_form auth_edit_form test_post) 1 true)),
     fixture).
Proof.
  assert (H1 : user auth_edit_form = AuthUser auth) by reflexivity.
  assert (H2 : Post_objects_get_pk 1 fixture = (Ok test_post, fixture))
    by reflexivity.
  assert (H3 : author test_post = user_id auth) by reflexivity.
  assert (H4 : method auth_edit_form = GET \/
               PostForm_is_valid (groups fixture)
                 (edit_form auth_edit_form test_post) = false)
    by (left; reflexivity).
  repeat (split; [assumption|]).
  exact (post_edit_shows_form auth_edit_form 1 auth test_post fixture
           H1 H2 H3 H4).
Defined.

Lemma add_comment_saves_witness :
  user auth_comment = AuthUser auth /\
  Post_objects_get_pk 1 fixture = (Ok test_post, fixture) /\
  CommentForm_is_valid (comment_form auth_comment) = true /\
  exists c w' before after,
    add_comment auth_comment 1 fixture =
      (Ok (HttpResponseRedirect (ToRoute (posts_post_detail 1))), w') /\
    Permutation (comments w') (c :: comments fixture) /\
    comment_author c = user_id auth /\ comment_post c = post_id test_post /\
    comment_text c = field_value (or_None (req_POST auth_comment)) "text" /\
    comment_created c = clock fixture /\
    post_detail index_request 1 fixture =
      (Ok (render "posts/post_detail.html"
                  (ctx_post_detail test_post before (mkCommentForm None))),
       fixture) /\
    post_detail index_request 1 w' =
      (Ok (render "posts/post_detail.html"
                  (ctx_post_detail test_post after (mkCommentForm None))), w') /\
    Permutation after (c :: before).
Proof.
  assert (H1 : user auth_comment = AuthUser auth) by reflexivity.
  assert (H2 : Post_objects_get_pk 1 fixture = (Ok test_post, fixture))
    by reflexivity.
  assert (H3 : CommentForm_is_valid (comment_form auth_comment) = true)
    by reflexivity.
  repeat (split; [assumption|]).
  exact (add_comment_saves auth_comment index_request 1 auth test_post fixture
           H1 H2 H3).
Defined.

Lemma filtered_feeds_show_matching_witness :
  get_Group_or_404_slug "testslug" fixture = (Ok test_group, fixture) /\
  user index_request = AuthUser auth /\
  User_objects_get_username "auth" fixture = (Ok auth, fixture) /\
  (forall x, In x (served_posts (group_posts index_request "testslug" fixture)) ->
             In x (posts fixture) /\ group x = Some (group_id test_group)).
Proof.
  assert (H1 : get_Group_or_404_slug "testslug" fixture = (Ok test_group, fixture))
    by reflexivity.
  assert (H2 : user index_request = AuthUser auth) by reflexivity.
  assert (H3 : User_objects_get_username "auth" fixture = (Ok auth, fixture))
    by reflexivity.
  do 3 (split; [assumption|]).
  exact (proj1 (filtered_feeds_show_matching index_request "testslug" "auth"
                  test_group auth auth fixture H1 H2 H3)).
Defined.

Lemma follow_feed_shows_followed_witness :
  user index_request = AuthUser auth /\
  (forall f, In f (follows fixture) -> follow_user f <> user_id auth) /\
  served_posts (follow_index index_request fixture) = [].
Proof.
  assert (H1 : user index_request = AuthUser auth) by reflexivity.
  assert (H2 : forall f, In f (follows fixture) -> follow_user f <> user_id auth)
    by (intros f []).
  repeat (split; [assumption|]).
  exact (proj2 (follow_feed_shows_followed index_request auth fixture H1) H2).
Defined.

Lemma profile_unfollow_other_rows_witness :
  user unfollow_request = AuthUser auth /\
  User_objects_get_username "followed" fixture = (Ok followed_user, fixture) /\
  exists w',
    profile_unfollow unfollow_request "followed" fixture
      = (Ok (HttpResponseRedirect (ToRoute (posts_profile "followed"))), w') /\
    (forall f, In f (follows w') <->
               In f (follows fixture) /\
               ~ (follow_user f = user_id auth /\
                  follow_author f = user_id followed_user)) /\
    profile_unfollow unfollow_request "followed" w'
      = (Ok (HttpResponseRedirect (ToRoute (posts_profile "followed"))), w').
Proof.
  assert (H1 : user unfollow_request = AuthUser auth) by reflexivity.
  assert (H2 : User_objects_get_username "followed" fixture
               = (Ok followed_user, fixture)) by reflexivity.
  repeat (split; [assumption|]).
  exact (profile_unfollow_other_rows unfollow_request "followed" auth
           followed_user fixture H1 H2).
Defined.

Lemma index_cache_per_url_witness :
  get_full_path index_request <> get_full_path page2_query_request /\
  method page2_query_request = GET /\
  cache_get (cache cache_fixture)
            ("index_page", get_full_path page2_query_request)
            (clock cache_fixture) = None /\
  exists resp w2,
    index page2_query_request (snd (index index_request cache_fixture))
      = (Ok resp, w2) /\
    index_view page2_query_request (snd (index index_request cache_fixture))
      = (Ok resp, snd (index index_request cache_fixture)) /\
    forall x, In x (response_posts resp) -> In x (posts cache_fixture).
Proof.
  assert (H1 : get_full_path index_request <> get_full_path page2_query_request)
    by discriminate.
  assert (H2 : method page2_query_request = GET) by reflexivity.
  assert (H3 : cache_get (cache cache_fixture)
                 ("index_page", get_full_path page2_query_request)
                 (clock cache_fixture) = None) by reflexivity.
  repeat (split; [assumption|]).
  exact (proj2 (index_cache_per_url index_request page2_query_request
                  cache_fixture H1 H2 H3)).
Defined.

Lemma index_newest_on_top_witness :
  method index_request = GET /\
  cache_get (cache cache_fixture) ("index_page", get_full_path index_request)
            (clock cache_fixture) = None /\
  asks_no_page index_request /\
  In test_post (posts cache_fixture) /\
  exists resp w' top,
    index index_request cache_fixture = (Ok resp, w') /\
    hd_error (response_posts resp) = Some top /\
    In top (posts cache_fixture) /\
    pub_date test_post <= pub_date top.
Proof.
  assert (H1 : method index_request = GET) by reflexivity.
  assert (H2 : cache_get (cache cache_fixture)
                 ("index_page", get_full_path index_request)
                 (clock cache_fixture) = None) by reflexivity.
  assert (H3 : asks_no_page index_request) by exact I.
  assert (H4 : In test_post (posts cache_fixture)) by (left; reflexivity).
  repeat (split; [assumption|]).
  exact (index_newest_on_top index_request cache_fixture test_post H1 H2 H3 H4).
Defined.

Lemma one_page_asks (k : Z) :
  1 <= k <= num_pages (feed_paginator (posts cache_fixture)) ->
  asks_page (two_pages k) k.
Proof.
  change (num_pages (feed_paginator (posts cache_fixture))) with 1. intros Hk.
  assert (Hc : k = 1) by lia.
  subst k. exists "1". repeat split.
Defined.

Lemma index_pages_cover_store_witness :
  (forall k, 1 <= k <= num_pages (feed_paginator (posts cache_fixture)) ->
             asks_page (two_pages k) k) /\
  Permutation
    (List.concat
       (map (fun i => served_posts (index_view (two_pages (Z.of_nat i + 1))
                                               cache_fixture))
            (seq 0 (Z.to_nat (num_pages (feed_paginator (posts cache_fixture)))))))
    (posts cache_fixture).
Proof.
  split; [exact one_page_asks|].
  exact (proj1 (index_pages_cover_store two_pages cache_fixture one_page_asks)).
Defined.

Lemma follow_unknown_username_witness :
  user auth_follow_nobody = AuthUser auth /\
  (forall x, In x (users fixture) -> username x <> "nobody") /\
  get_response (profile_follow auth_follow_nobody "nobody") fixture
    = (ServerError500 DoesNotExist, fixture).
Proof.
  assert (H1 : user auth_follow_nobody = AuthUser auth) by reflexivity.
  assert (H2 : forall x, In x (users fixture) -> username x <> "nobody").
  { intros x [<-|[<-|[]]]; discriminate. }
  repeat (split; [assumption|]).
  exact (proj1 (follow_unknown_username auth_follow_nobody "nobody" auth fixture
                  H1 H2)).
Defined.

(* ===================================================================== *)
(** * The feeds, tied to the store *)
(* ===================================================================== *)

Lemma get_page_obj_feed (feed : list Post) (request : HttpRequest) (w : World) :
  exists pg, get_page_obj feed POSTS_COUNT request w = (Ok pg, w) /\
             page_of_feed pg feed.
Proof.
  destruct (get_page_obj_tenth feed request w) as [E Hk]. cbv zeta in E, Hk.
  eexists. split; [exact E|].
  unfold page_of_feed. cbn [paginator number page_object_list].
  split; [reflexivity|]. split; [exact Hk|reflexivity].
Qed.

Lemma newest_first_page (pg : Page) (feed : list Post) :
  newest_first feed -> page_of_feed pg feed ->
  newest_first (page_object_list pg).
Proof.
  intros Hs (_ & _ & ->).
  now apply newest_first_firstn, newest_first_skipn.
Qed.

Lemma queryset_feed (keep : Post -> bool) (w : World) :
  Post_queryset keep w
  = (Ok (apply_ordering Post_Meta_ordering (filter keep (posts w))), w) /\
  Permutation (apply_ordering Post_Meta_ordering (filter keep (posts w)))
              (filter keep (posts w)) /\
  newest_first (apply_ordering Post_Meta_ordering (filter keep (posts w))).
Proof.
  split; [reflexivity|]. split.
  - simpl. apply Permutation_sym, order_by_pub_date_desc_perm.
  - apply apply_ordering_sorted.
Qed.

Lemma index_view_feed (request : HttpRequest) (w : World) :
  exists t pg feed,
    index_view request w =
      (Ok (render "posts/index.html" (ctx_index t pg)), w) /\
    Permutation feed (posts w) /\ newest_first feed /\ page_of_feed pg feed.
Proof.
  unfold index_view, Post_objects_all_order_by_pub_date_desc. run_view.
  destruct (get_page_obj_feed (order_by_pub_date_desc (posts w)) request w)
    as (pg & -> & Hpg).
  eexists; exists pg, (order_by_pub_date_desc (posts w)).
  split; [reflexivity|]. split; [|split; [|exact Hpg]].
  - apply Permutation_sym, order_by_pub_date_desc_perm.
  - apply order_by_pub_date_desc_sorted.
Qed.

Lemma index_fresh (request : HttpRequest) (w : World) :
  method request = POST \/
  cache_get (cache w) ("index_page", get_full_path request) (clock w) = None ->
  fst (index request w) = fst (index_view request w).
Proof.
  intros H. destruct (method request) eqn:Hm.
  - destruct H as [H|H]; [discriminate|].
    destruct (index_miss request w Hm H) as (t & pg & Hv & Hi & _).
    cbv zeta in Hv, Hi. now rewrite Hv, Hi.
  - unfold index, cache_page. now rewrite Hm.
Qed.

Lemma follow_feed_In (u : User) (w : World) (x : Post) :
  In x (flat_map
          (fun p => map (fun _ => p)
                        (filter (fun f => (follow_author f =? author p) &&
                                          (follow_user f =? user_id u))
                                (follows w)))
          (posts w))
  <-> In x (posts w) /\ follows_author_of w u x.
Proof.
  rewrite in_flat_map. split.
  - intros (p & Hp & Hx).
    apply in_map_iff in Hx as (f & -> & Hf).
    apply filter_In in Hf as [Hf Hm].
    apply andb_true_iff in Hm as [H1 H2]. apply Z.eqb_eq in H1, H2.
    split; [exact Hp|]. exists f. auto.
  - intros (Hx & f & Hf & Hu & Ha).
    exists x. split; [exact Hx|].
    apply in_map_iff. exists f. split; [reflexivity|].
    apply filter_In. split; [exact Hf|].
    apply andb_true_iff. split; now apply Z.eqb_eq.
Qed.

(** C8.  Each of the four feeds answers with a page of a feed that is in
    descending order of [pub_date], and the feed is made of the stored
    posts the view selects, all of them and no other: every post for the
    site feed, the posts of the group, the posts of the author, the posts
    of the authors the user follows.  The site and group feeds do so for
    every visitor, the profile and the follow feed for a logged-in user.
    A page of the site feed that comes from the cache is in that order as
    well; on a POST or a miss of the cache the page is rendered from the
    store. *)
Theorem feeds_newest_first
        (request : HttpRequest) (s name : string) (g : Group) (a : User)
        (w : World) :
  cache_of_index_pages w ->
  get_Group_or_404_slug s w = (Ok g, w) ->
  User_objects_get_username name w = (Ok a, w) ->
  (exists t pg w',
     index request w = (Ok (render "posts/index.html" (ctx_index t pg)), w') /\
     newest_first (page_object_list pg)) /\
  (exists t pg feed,
     index_view request w =
       (Ok (render "posts/index.html" (ctx_index t pg)), w) /\
     Permutation feed (posts w) /\ newest_first feed /\
     page_of_feed pg feed /\ newest_first (page_object_list pg)) /\
  (method request = POST \/
   cache_get (cache w) ("index_page", get_full_path request) (clock w) = None ->
   fst (index request w) = fst (index_view request w)) /\
  (exists t pg feed,
     group_posts request s w =
       (Ok (render "posts/group_list.html" (ctx_group_list t g pg)), w) /\
     Permutation feed (filter (in_group g) (posts w)) /\ newest_first feed /\
     page_of_feed pg feed /\ newest_first (page_object_list pg)) /\
  (forall u, user request = AuthUser u ->
     exists feed pg following,
       profile request name w =
         (Ok (render "posts/profile.html" (ctx_profile a feed pg following)),
          w) /\
       Permutation feed (filter (written_by a) (posts w)) /\
       newest_first feed /\
       page_of_feed pg feed /\ newest_first (page_object_list pg)) /\
  (forall u, user request = AuthUser u ->
     exists t pg feed,
       follow_index request w =
         (Ok (render "posts/follow.html" (ctx_follow t pg)), w) /\
       (forall x, In x feed <-> In x (posts w) /\ follows_author_of w u x) /\
       newest_first feed /\
       page_of_feed pg feed /\ newest_first (page_object_list pg)).
Proof.
  intros Hc Hg Ha.
  refine (conj _ (conj _ (conj _ (conj _ (conj _ _))))).
  - destruct (index_newest_first request w Hc)
      as (r & w' & Hr & (t & pg & -> & Hs) & _).
    now exists t, pg, w'.
  - destruct (index_view_feed request w) as (t & pg & feed & E & Hp & Hs & Hpg).
    exists t, pg, feed. repeat (split; [assumption|]).
    now apply newest_first_page with feed.
  - apply index_fresh.
  - unfold group_posts. unfold bind at 1. rewrite Hg.
    unfold group_posts_all.
    destruct (queryset_feed (in_group g) w) as (Eq & Hp & Hs).
    unfold in_group in Eq at 1. unfold bind at 1. rewrite Eq.
    destruct (get_page_obj_feed
                (apply_ordering Post_Meta_ordering
                                (filter (in_group g) (posts w))) request w)
      as (pg & Epg & Hpg).
    unfold bind at 1. rewrite Epg. run_view.
    eexists; exists pg; eexists. split; [reflexivity|].
    repeat (split; [eassumption|]).
    eapply newest_first_page; eassumption.
  - intros u Hu. unfold profile. unfold bind at 1. rewrite Ha.
    unfold Post_objects_filter_author.
    destruct (queryset_feed (written_by a) w) as (Eq & Hp & Hs).
    unfold written_by in Eq at 1. unfold bind at 1. rewrite Eq.
    destruct (get_page_obj_feed
                (apply_ordering Post_Meta_ordering
                                (filter (written_by a) (posts w))) request w)
      as (pg & Epg & Hpg).
    unfold bind at 1. rewrite Epg.
    unfold Follow_objects_filter. rewrite Hu. run_view. simpl User_of.
    cbv beta iota.
    eexists; exists pg; eexists. split; [reflexivity|].
    repeat (split; [eassumption|]).
    eapply newest_first_page; eassumption.
  - intros u Hu.
    unfold follow_index, login_required, follow_index_view. rewrite Hu.
    cbn [is_authenticated].
    unfold Post_objects_filter_author__following__user. run_view.
    simpl User_of. cbv beta iota.
    match goal with
    | |- context [get_page_obj ?l POSTS_COUNT request w] =>
        destruct (get_page_obj_feed l request w) as (pg & -> & Hpg);
        eexists; exists pg, l
    end.
    split; [reflexivity|]. split; [|split; [|split; [exact Hpg|]]].
    + intros x. rewrite apply_ordering_In. apply follow_feed_In.
    + apply apply_ordering_sorted.
    + eapply newest_first_page; [|exact Hpg]. apply apply_ordering_sorted.
Qed.

Lemma feeds_newest_first_witness :
  cache_of_index_pages feeds_fixture /\
  get_Group_or_404_slug "testslug" feeds_fixture = (Ok test_group, feeds_fixture) /\
  User_objects_get_username "auth" feeds_fixture = (Ok auth, feeds_fixture) /\
  user index_request = AuthUser auth /\
  (exists t pg feed,
     group_posts index_request "testslug" feeds_fixture =
       (Ok (render "posts/group_list.html" (ctx_group_list t test_group pg)),
        feeds_fixture) /\
     Permutation feed (filter (in_group test_group) (posts feeds_fixture)) /\
     newest_first feed /\
     page_of_feed pg feed /\ newest_first (page_object_list pg)) /\
  (exists feed pg following,
     profile index_request "auth" feeds_fixture =
       (Ok (render "posts/profile.html" (ctx_profile auth feed pg following)),
        feeds_fixture) /\
     Permutation feed (filter (written_by auth) (posts feeds_fixture)) /\
     newest_first feed /\
     page_of_feed pg feed /\ newest_first (page_object_list pg)) /\
  (exists t pg feed,
     follow_index index_request feeds_fixture =
       (Ok (render "posts/follow.html" (ctx_follow t pg)), feeds_fixture) /\
     (forall x, In x feed <->
                In x (posts feeds_fixture) /\
                follows_author_of feeds_fixture auth x) /\
     newest_first feed /\
     page_of_feed pg feed /\ newest_first (page_object_list pg)).
Proof.
  assert (H1 : cache_of_index_pages feeds_fixture) by constructor.
  assert (H2 : get_Group_or_404_slug "testslug" feeds_fixture
               = (Ok test_group, feeds_fixture)) by reflexivity.
  assert (H3 : User_objects_get_username "auth" feeds_fixture
               = (Ok auth, feeds_fixture)) by reflexivity.
  assert (H4 : user index_request = AuthUser auth) by reflexivity.
  do 4 (split; [assumption|]).
  destruct (feeds_newest_first index_request "testslug" "auth" test_group auth
              feeds_fixture H1 H2 H3) as (_ & _ & _ & Hg & Hp & Hf).
  split; [exact Hg|]. split; [exact (Hp auth H4)|exact (Hf auth H4)].
Defined.

(** The four feeds on a store of four posts, stored out of order: the
    site feed for a guest, the group feed for a guest, and the profile and
    the follow feed of [auth], who follows one author. *)
Example feeds_on_fixture :
  map post_id (shown (index guest_index_request feeds_fixture)) = [2; 4; 3; 1] /\
  map post_id (shown (group_posts guest_index_request "testslug" feeds_fixture))
    = [2; 1] /\
  map post_id (shown (profile index_request "auth" feeds_fixture)) = [3; 1] /\
  map post_id (shown (follow_index index_request feeds_fixture)) = [2].
Proof. repeat split. Qed.

(* ===================================================================== *)
(** * The cached site feed between two requests *)
(* ===================================================================== *)













(** The course of [cache_history] computed: the cached page is served
    after it, and holds the deleted post. *)
Example cache_history_on_fixture :
  map post_id
      (shown (index index_request
                    (run cache_history
                         (snd (index guest_index_request cache_fixture)))))
    = [2; 1].
Proof. reflexivity. Qed.
